(** * AI Weather Chatbot: a shallow embedding of [app.py]

    The development follows the source file top to bottom:
    - [PyData]: the Python values the program manipulates (parsed JSON,
      what an f-string inserts for them, [str.capitalize]);
    - [PyExc]: the exceptions that reach the program's [try] blocks, and
      the operations that raise them (subscripting, [raise_for_status]);
    - the messages, tool calls and completion requests, and [Outside], the
      services the program calls: the completion endpoint, the weather
      provider, [json.loads] and the process environment;
    - [App]: [get_weather], [execute_tool_call], [chat_with_groq] and the
      "Clear Chat History" action, written in a state-and-exception monad
      over the session;
    - the phases of a turn, in which the properties are stated;
    - [Json] and [Script]: a JSON reader and a scripted outside world, on
      which the program runs on concrete conversations;
    - the properties of the program, for every [Outside], and their
      instances on scripted conversations.

    Text is modelled by [string] (a sequence of bytes, UTF-8 for text that
    is not ASCII).  [str.capitalize], whose case mapping is Unicode's, is
    taken from the Python runtime ([str_capitalize] of [Outside]), so what
    is proved about the rendered text holds for Python's own function; the
    function [capitalize] below is its restriction to ASCII letters, on
    which the scripted conversations run.  [repr] is exact on ASCII text.
    A Python [float] is carried by its [repr], which is all the program
    ever does with one. *)

From Stdlib Require Import String Ascii List ZArith NArith Lia Bool DecimalString.
Import ListNotations.
Local Open Scope string_scope.
Set Warnings "-register-all".

(* ===================================================================== *)
(** ** Python values *)
(* ===================================================================== *)

Module PyData.

(** What [json.loads] and [response.json()] produce.  A [dict] keeps its
    insertion order, so it is an association list. *)
Inductive PyVal : Type :=
| PyNone
| PyBool (b : bool)
| PyInt (n : Z)
| PyFloat (repr : string)
| PyStr (s : string)
| PyList (l : list PyVal)
| PyDict (d : list (string * PyVal)).

Definition DQUOTE : ascii := ascii_of_nat 34.
Definition SQUOTE : ascii := ascii_of_nat 39.
Definition BACKSLASH : ascii := ascii_of_nat 92.
Definition LF : ascii := ascii_of_nat 10.
Definition CR : ascii := ascii_of_nat 13.
Definition TAB : ascii := ascii_of_nat 9.

Definition str_of_Z (n : Z) : string :=
  NilZero.string_of_int (Z.to_int n).

Definition str_of_nat (n : nat) : string := str_of_Z (Z.of_nat n).

Fixpoint string_map (f : ascii -> ascii) (s : string) : string :=
  match s with
  | EmptyString => EmptyString
  | String c r => String (f c) (string_map f r)
  end.

Fixpoint string_flat_map (f : ascii -> string) (s : string) : string :=
  match s with
  | EmptyString => EmptyString
  | String c r => f c ++ string_flat_map f r
  end.

Fixpoint string_mem (c : ascii) (s : string) : bool :=
  match s with
  | EmptyString => false
  | String d r => Ascii.eqb c d || string_mem c r
  end.

(** [", ".join(l)] *)
Fixpoint join (sep : string) (l : list string) : string :=
  match l with
  | [] => ""
  | [x] => x
  | x :: r => x ++ sep ++ join sep r
  end.

Definition hex_digit (n : nat) : ascii :=
  if Nat.ltb n 10 then ascii_of_nat (48 + n) else ascii_of_nat (87 + n).

(** One character of [repr(s)], [q] being the quote chosen for [s]. *)
Definition repr_char (q c : ascii) : string :=
  let n := nat_of_ascii c in
  if Ascii.eqb c BACKSLASH then String BACKSLASH (String BACKSLASH "")
  else if Ascii.eqb c q then String BACKSLASH (String q "")
  else if Ascii.eqb c LF then String BACKSLASH "n"
  else if Ascii.eqb c CR then String BACKSLASH "r"
  else if Ascii.eqb c TAB then String BACKSLASH "t"
  else if Nat.ltb n 32 || Nat.eqb n 127
       then String BACKSLASH
              (String "x" (String (hex_digit (n / 16)) (String (hex_digit (n mod 16)) "")))
  else String c "".

(** [repr] of a [str]: single quotes, unless the text holds a single quote
    and no double quote. *)
Definition repr_str (s : string) : string :=
  let q := if string_mem SQUOTE s && negb (string_mem DQUOTE s)
           then DQUOTE else SQUOTE in
  String q (string_flat_map (repr_char q) s) ++ String q "".

Fixpoint py_repr (v : PyVal) : string :=
  match v with
  | PyNone => "None"
  | PyBool true => "True"
  | PyBool false => "False"
  | PyInt n => str_of_Z n
  | PyFloat r => r
  | PyStr s => repr_str s
  | PyList l => "[" ++ join ", " (map py_repr l) ++ "]"
  | PyDict d =>
      "{" ++ join ", " (map (fun kv => match kv with
                                       | (k, x) => repr_str k ++ ": " ++ py_repr x
                                       end) d) ++ "}"
  end.

(** [str(v)], which is what a replacement field [{v}] of an f-string
    inserts for these types. *)
Definition py_str (v : PyVal) : string :=
  match v with
  | PyStr s => s
  | _ => py_repr v
  end.

Definition type_name (v : PyVal) : string :=
  match v with
  | PyNone => "NoneType"
  | PyBool _ => "bool"
  | PyInt _ => "int"
  | PyFloat _ => "float"
  | PyStr _ => "str"
  | PyList _ => "list"
  | PyDict _ => "dict"
  end.

Fixpoint dict_get (d : list (string * PyVal)) (k : string) : option PyVal :=
  match d with
  | [] => None
  | (k', x) :: r => if String.eqb k' k then Some x else dict_get r k
  end.

(** [s.capitalize()] on ASCII letters: first character upper-cased, the
    rest lower-cased, every other byte as it is.  The program itself calls
    the runtime's [str_capitalize]; this one serves the scripted runs. *)
Definition is_lower (c : ascii) : bool :=
  let n := nat_of_ascii c in Nat.leb 97 n && Nat.leb n 122.
Definition is_upper (c : ascii) : bool :=
  let n := nat_of_ascii c in Nat.leb 65 n && Nat.leb n 90.
Definition to_upper (c : ascii) : ascii :=
  if is_lower c then ascii_of_nat (nat_of_ascii c - 32) else c.
Definition to_lower (c : ascii) : ascii :=
  if is_upper c then ascii_of_nat (nat_of_ascii c + 32) else c.

Definition capitalize (s : string) : string :=
  match s with
  | EmptyString => EmptyString
  | String c r => String (to_upper c) (string_map to_lower r)
  end.

End PyData.
Export PyData.

(* ===================================================================== *)
(** ** Exceptions *)
(* ===================================================================== *)

Module PyExc.

(** [requests.Response], as far as the program looks at it. *)
Record Response : Type := {
  status_code : Z;
  reason : string;
  url : string;
  text : string
}.

(** The instances of [Exception] that can reach the program's handlers.
    [requests] raises [HTTPError] from [raise_for_status] only, and always
    with the response attached. *)
Inductive PyException : Type :=
| HTTPError (msg : string) (response : Response)
| RequestException (msg : string)
| JSONDecodeError (msg doc : string) (pos : nat)
| KeyError (key : PyVal)
| IndexError (msg : string)
| TypeError (msg : string)
| AttributeError (msg : string)
| APIError (msg : string).

(** Line and column of offset [pos] in [doc], both counted from 1. *)
Fixpoint line_col (doc : string) (pos : nat) (line col : nat) : nat * nat :=
  match pos, doc with
  | S p, String c r =>
      if Ascii.eqb c LF then line_col r p (S line) 1
      else line_col r p line (S col)
  | _, _ => (line, col)
  end.

(** [str(e)] *)
Definition str_exn (e : PyException) : string :=
  match e with
  | HTTPError msg _ => msg
  | RequestException msg => msg
  | JSONDecodeError msg doc pos =>
      let (l, c) := line_col doc pos 1 1 in
      msg ++ ": line " ++ str_of_nat l ++ " column " ++ str_of_nat c
          ++ " (char " ++ str_of_nat pos ++ ")"
  | KeyError key => py_repr key
  | IndexError msg => msg
  | TypeError msg => msg
  | AttributeError msg => msg
  | APIError msg => msg
  end.

Definition Result (A : Type) : Type := (PyException + A)%type.

(** [v[k]] for a [str] key *)
Definition py_getitem_str (v : PyVal) (k : string) : Result PyVal :=
  match v with
  | PyDict d =>
      match dict_get d k with
      | Some x => inr x
      | None => inl (KeyError (PyStr k))
      end
  | PyList _ => inl (TypeError "list indices must be integers or slices, not str")
  | PyStr _ => inl (TypeError "string indices must be integers, not 'str'")
  | _ => inl (TypeError ("'" ++ type_name v ++ "' object is not subscriptable"))
  end.

(** [v[i]] for an [int] index *)
Definition py_getitem_int (v : PyVal) (i : Z) : Result PyVal :=
  match v with
  | PyDict _ => inl (KeyError (PyInt i))
  | PyList l =>
      let n := Z.of_nat (List.length l) in
      let j := (if i <? 0 then i + n else i)%Z in
      if ((0 <=? j) && (j <? n))%Z
      then match nth_error l (Z.to_nat j) with
           | Some x => inr x
           | None => inl (IndexError "list index out of range")
           end
      else inl (IndexError "list index out of range")
  | PyStr s =>
      let n := Z.of_nat (String.length s) in
      let j := (if i <? 0 then i + n else i)%Z in
      if ((0 <=? j) && (j <? n))%Z
      then match String.get (Z.to_nat j) s with
           | Some c => inr (PyStr (String c ""))
           | None => inl (IndexError "string index out of range")
           end
      else inl (IndexError "string index out of range")
  | _ => inl (TypeError ("'" ++ type_name v ++ "' object is not subscriptable"))
  end.

(** [response.raise_for_status()] *)
Definition raise_for_status (r : Response) : Result unit :=
  let prefix_ :=
    str_of_Z (status_code r) in
  let suffix_ := reason r ++ " for url: " ++ url r in
  if ((400 <=? status_code r) && (status_code r <? 500))%Z
  then inl (HTTPError (prefix_ ++ " Client Error: " ++ suffix_) r)
  else if ((500 <=? status_code r) && (status_code r <? 600))%Z
  then inl (HTTPError (prefix_ ++ " Server Error: " ++ suffix_) r)
  else inr tt.

End PyExc.
Export PyExc.

(* ===================================================================== *)
(** ** Messages, tool calls and completion requests *)
(* ===================================================================== *)

Inductive Role : Type := user | assistant | tool | system.

(** [tool_call.function] *)
Module Fn.
Record t : Type := { name : string; arguments : string }.
End Fn.

(** A tool call as the completion endpoint returns it. *)
Module ToolCall.
Record t : Type := { id : string; function : Fn.t }.
End ToolCall.

(** A tool call as the program stores it in an assistant message. *)
Module ToolCallDict.
Record t : Type := { id : string; type : string; function : Fn.t }.
End ToolCallDict.

(** An entry of [st.session_state.messages]; a key the dictionary does not
    have is [None] here, and so is a [content] that is Python's [None]. *)
Module Msg.
Record t : Type := {
  role : Role;
  content : option string;
  tool_calls : option (list ToolCallDict.t);
  tool_call_id : option string
}.
End Msg.

(** [response.choices[i].message] *)
Module ChatMessage.
Record t : Type := {
  content : option string;
  tool_calls : option (list ToolCall.t)
}.
End ChatMessage.

Module ChatCompletion.
Record t : Type := { choices : list ChatMessage.t }.
End ChatCompletion.

(** The keyword arguments of [client.chat.completions.create]; an argument
    that is not passed is [None]. *)
Module Req.
Record t : Type := {
  model : string;
  messages : list Msg.t;
  tools : option PyVal;
  tool_choice : option string;
  max_tokens : Z;
  temperature : PyVal
}.
End Req.

(** Calls that leave the program, in the order they are made. *)
Inductive Event : Type :=
| CompletionCall (request : Req.t)
| HttpGet (url : string) (params : PyVal).

(** The outside world: the two network services, the library functions
    [json.loads] and [str.capitalize], and the process environment.  [W] is
    the state of everything outside the program; a network call may depend
    on it and change it. *)
Class Outside (W : Type) : Type := {
  json_loads : string -> Result PyVal;
  str_capitalize : string -> string;
  requests_get : string -> PyVal -> W -> Result Response * W;
  completions_create : Req.t -> W -> Result ChatCompletion.t * W;
  OPENWEATHER_API_KEY : PyVal
}.

(** [v.capitalize()]: the method exists on texts only. *)
Definition py_capitalize {W : Type} {O : Outside W} (v : PyVal) : Result string :=
  match v with
  | PyStr s => inr (str_capitalize s)
  | _ => inl (AttributeError
                ("'" ++ type_name v ++ "' object has no attribute 'capitalize'"))
  end.

(** The session: [st.session_state.messages], the outside world, and a
    log of the outbound calls made so far (the log is not program state:
    nothing reads it, it records what the program did). *)
Record Session (W : Type) : Type := {
  messages : list Msg.t;
  world : W;
  calls : list Event
}.
Arguments messages {W} _.
Arguments world {W} _.
Arguments calls {W} _.

(* ===================================================================== *)
(** ** The program *)
(* ===================================================================== *)

(** Successful or failed lookup: the dictionaries
    [{"success": True, "data": ...}] and [{"success": False, "error": ...}]. *)
Module Weather.
Record Info : Type := {
  city : PyVal;
  country : PyVal;
  temperature : PyVal;
  feels_like : PyVal;
  humidity : PyVal;
  description : PyVal;
  wind_speed : PyVal
}.
Inductive Lookup : Type :=
| Success (data : Info)
| Failure (error : string).
End Weather.

Definition SYSTEM_PROMPT : string :=
"You are a helpful AI assistant with access to weather information.
You can look up current weather conditions for any city in the world.

When users ask about weather, you should use the get_weather tool to fetch real-time data.
Always be friendly, concise, and accurate in your responses.

If a user asks about weather without specifying a city, politely ask them which city they'd like to know about.".

Definition TOOLS : PyVal :=
  PyList [
    PyDict [
      ("type", PyStr "function");
      ("function", PyDict [
        ("name", PyStr "get_weather");
        ("description", PyStr "Get current weather information for a specified city");
        ("parameters", PyDict [
          ("type", PyStr "object");
          ("properties", PyDict [
            ("city", PyDict [
              ("type", PyStr "string");
              ("description",
               PyStr "The city name (e.g., 'London', 'New York', 'Tokyo')")
            ])
          ]);
          ("required", PyList [PyStr "city"])
        ])
      ])
    ]
  ].

Module App.
Section WithOutside.

Context {W : Type} {O : Outside W}.

(** A computation reads and updates the session and either returns a value
    or raises.  What it did to the session before raising stays done. *)
Definition M (A : Type) : Type := Session W -> Result A * Session W.

Definition ret {A} (a : A) : M A := fun s => (inr a, s).

Definition raise {A} (e : PyException) : M A := fun s => (inl e, s).

Definition bind {A B} (m : M A) (f : A -> M B) : M B :=
  fun s =>
    match m s with
    | (inr a, s') => f a s'
    | (inl e, s') => (inl e, s')
    end.

(** [try: body  except Exception as e: handler] *)
Definition try_except {A} (body : M A) (handler : PyException -> M A) : M A :=
  fun s =>
    match body s with
    | (inl e, s') => handler e s'
    | (inr a, s') => (inr a, s')
    end.

Definition lift {A} (r : Result A) : M A := fun s => (r, s).

Notation "x <- m ;; k" := (bind m (fun x => k))
  (at level 61, m at next level, right associativity).
Notation "m ;; k" := (bind m (fun _ => k))
  (at level 61, right associativity).

(** [st.session_state.messages] and [st.session_state.messages.append(m)] *)
Definition get_messages : M (list Msg.t) := fun s => (inr (messages s), s).

Definition append_message (m : Msg.t) : M unit :=
  fun s => (inr tt, {| messages := messages s ++ [m];
                       world := world s;
                       calls := calls s |}).

(** [requests.get(url, params=params)] *)
Definition http_get (url : string) (params : PyVal) : M Response :=
  fun s =>
    let (r, w) := requests_get url params (world s) in
    (r, {| messages := messages s;
           world := w;
           calls := calls s ++ [HttpGet url params] |}).

(** [client.chat.completions.create(...)] *)
Definition create (request : Req.t) : M ChatCompletion.t :=
  fun s =>
    let (r, w) := completions_create request (world s) in
    (r, {| messages := messages s;
           world := w;
           calls := calls s ++ [CompletionCall request] |}).

(** [response.json()] *)
Definition response_json (r : Response) : Result PyVal := json_loads (text r).

Definition get_weather (city : PyVal) : M Weather.Lookup :=
  try_except
    (let url := "http://api.openweathermap.org/data/2.5/weather" in
     let params := PyDict [("q", city);
                           ("appid", OPENWEATHER_API_KEY);
                           ("units", PyStr "metric")] in
     response <- http_get url params ;;
     lift (raise_for_status response) ;;
     data <- lift (response_json response) ;;
     v_city <- lift (py_getitem_str data "name") ;;
     d_sys <- lift (py_getitem_str data "sys") ;;
     v_country <- lift (py_getitem_str d_sys "country") ;;
     d_main <- lift (py_getitem_str data "main") ;;
     v_temperature <- lift (py_getitem_str d_main "temp") ;;
     d_main <- lift (py_getitem_str data "main") ;;
     v_feels_like <- lift (py_getitem_str d_main "feels_like") ;;
     d_main <- lift (py_getitem_str data "main") ;;
     v_humidity <- lift (py_getitem_str d_main "humidity") ;;
     l_weather <- lift (py_getitem_str data "weather") ;;
     d_weather <- lift (py_getitem_int l_weather 0) ;;
     v_description <- lift (py_getitem_str d_weather "description") ;;
     d_wind <- lift (py_getitem_str data "wind") ;;
     v_wind_speed <- lift (py_getitem_str d_wind "speed") ;;
     let weather_info :=
       {| Weather.city := v_city;
          Weather.country := v_country;
          Weather.temperature := v_temperature;
          Weather.feels_like := v_feels_like;
          Weather.humidity := v_humidity;
          Weather.description := v_description;
          Weather.wind_speed := v_wind_speed |} in
     ret (Weather.Success weather_info))
    (fun e =>
       match e with
       | HTTPError _ response =>
           if (status_code response =? 404)%Z
           then ret (Weather.Failure
                       ("City '" ++ py_str city
                          ++ "' not found. Please check the spelling."))
           else ret (Weather.Failure ("HTTP error occurred: " ++ str_exn e))
       | _ =>
           ret (Weather.Failure ("Error fetching weather data: " ++ str_exn e))
       end).

(** The text rendered for a successful lookup, [description] being the
    already capitalized condition text. *)
Definition weather_text (data : Weather.Info) (description : string) : string :=
  "Weather in " ++ py_str (Weather.city data) ++ ", "
    ++ py_str (Weather.country data) ++ ":
- Temperature: " ++ py_str (Weather.temperature data)
    ++ "°C (feels like " ++ py_str (Weather.feels_like data) ++ "°C)
- Conditions: " ++ description ++ "
- Humidity: " ++ py_str (Weather.humidity data) ++ "%
- Wind Speed: " ++ py_str (Weather.wind_speed data) ++ " m/s".

Definition execute_tool_call (tool_call : ToolCall.t) : M string :=
  let function_name := Fn.name (ToolCall.function tool_call) in
  arguments <- lift (json_loads (Fn.arguments (ToolCall.function tool_call))) ;;
  if String.eqb function_name "get_weather" then
    city <- lift (py_getitem_str arguments "city") ;;
    result <- get_weather city ;;
    match result with
    | Weather.Success data =>
        description <- lift (py_capitalize (Weather.description data)) ;;
        ret (weather_text data description)
    | Weather.Failure error => ret error
    end
  else ret "Unknown tool".

Definition system_message : Msg.t :=
  {| Msg.role := system;
     Msg.content := Some SYSTEM_PROMPT;
     Msg.tool_calls := None;
     Msg.tool_call_id := None |}.

(** The entry stored for one requested tool call (the comprehension's body). *)
Definition tool_call_dict (tc : ToolCall.t) : ToolCallDict.t :=
  {| ToolCallDict.id := ToolCall.id tc;
     ToolCallDict.type := "function";
     ToolCallDict.function :=
       {| Fn.name := Fn.name (ToolCall.function tc);
          Fn.arguments := Fn.arguments (ToolCall.function tc) |} |}.

Definition tool_message (tool_call : ToolCall.t) (tool_result : string) : Msg.t :=
  {| Msg.role := tool;
     Msg.content := Some tool_result;
     Msg.tool_calls := None;
     Msg.tool_call_id := Some (ToolCall.id tool_call) |}.

Definition assistant_message (content : option string) : Msg.t :=
  {| Msg.role := assistant;
     Msg.content := content;
     Msg.tool_calls := None;
     Msg.tool_call_id := None |}.

Definition user_msg (content : string) : Msg.t :=
  {| Msg.role := user;
     Msg.content := Some content;
     Msg.tool_calls := None;
     Msg.tool_call_id := None |}.

(** [for tool_call in response_message.tool_calls: ...] *)
Fixpoint run_tool_calls (tool_calls : list ToolCall.t) : M unit :=
  match tool_calls with
  | [] => ret tt
  | tool_call :: rest =>
      tool_result <- execute_tool_call tool_call ;;
      append_message (tool_message tool_call tool_result) ;;
      run_tool_calls rest
  end.

(** [response.choices[0].message] *)
Definition first_message (response : ChatCompletion.t) : Result ChatMessage.t :=
  match ChatCompletion.choices response with
  | m :: _ => inr m
  | [] => inl (IndexError "list index out of range")
  end.

(** The tool calls of a response message when the test
    [if response_message.tool_calls:] succeeds, [[]] when it fails
    ([None] and the empty list are both false). *)
Definition requested_tool_calls (m : ChatMessage.t) : list ToolCall.t :=
  match ChatMessage.tool_calls m with
  | Some tcs => tcs
  | None => []
  end.

Definition first_request (api_messages : list Msg.t) : Req.t :=
  {| Req.model := "llama-3.3-70b-versatile";
     Req.messages := api_messages;
     Req.tools := Some TOOLS;
     Req.tool_choice := Some "auto";
     Req.max_tokens := 1024;
     Req.temperature := PyFloat "0.7" |}.

Definition final_request (api_messages : list Msg.t) : Req.t :=
  {| Req.model := "llama-3.3-70b-versatile";
     Req.messages := api_messages;
     Req.tools := None;
     Req.tool_choice := None;
     Req.max_tokens := 1024;
     Req.temperature := PyFloat "0.7" |}.

(** [x or ""] for an optional text *)
Definition or_empty (x : option string) : string :=
  match x with
  | Some t => t
  | None => ""
  end.

Definition chat_with_groq (user_message : string) : M (option string) :=
  append_message (user_msg user_message) ;;
  history <- get_messages ;;
  let api_messages := system_message :: history in
  try_except
    (response <- create (first_request api_messages) ;;
     response_message <- lift (first_message response) ;;
     final_message <-
       match requested_tool_calls response_message with
       | (_ :: _) as tool_calls =>
           append_message
             {| Msg.role := assistant;
                Msg.content := Some (or_empty (ChatMessage.content response_message));
                Msg.tool_calls := Some (map tool_call_dict tool_calls);
                Msg.tool_call_id := None |} ;;
           run_tool_calls tool_calls ;;
           history <- get_messages ;;
           let api_messages := system_message :: history in
           final_response <- create (final_request api_messages) ;;
           m <- lift (first_message final_response) ;;
           ret (ChatMessage.content m)
       | [] => ret (ChatMessage.content response_message)
       end ;;
     append_message (assistant_message final_message) ;;
     ret final_message)
    (fun e =>
       let error_message := "Error communicating with Groq API: " ++ str_exn e in
       append_message (assistant_message (Some error_message)) ;;
       ret (Some error_message)).

(** The sidebar button: [st.session_state.messages = []] *)
Definition clear_chat_history (s : Session W) : Session W :=
  {| messages := []; world := world s; calls := calls s |}.

(** The session a turn leaves behind, and the sessions a sequence of user
    inputs leaves behind, one turn after the other. *)
Definition after_turn (s : Session W) (user_message : string) : Session W :=
  snd (chat_with_groq user_message s).

Definition after_turns (s : Session W) (inputs : list string) : Session W :=
  fold_left after_turn inputs s.

End WithOutside.
End App.

(* ===================================================================== *)
(** ** The phases of a turn *)
(* ===================================================================== *)

(** Names for the sessions a turn goes through and for the outcomes of its
    outbound calls, in which the properties are stated. *)

Import App.

(** [t] occurs in [s]. *)
Definition occurs_in (t s : string) : Prop :=
  exists before after, s = before ++ t ++ after.

Definition is_http_get (ev : Event) : bool :=
  match ev with
  | HttpGet _ _ => true
  | CompletionCall _ => false
  end.

(** The requests sent to the completion endpoint among some calls. *)
Fixpoint completion_requests (evs : list Event) : list Req.t :=
  match evs with
  | [] => []
  | CompletionCall r :: rest => r :: completion_requests rest
  | HttpGet _ _ :: rest => completion_requests rest
  end.

(** A tool-result message. *)
Definition is_tool_result (m : Msg.t) : bool :=
  match Msg.role m with
  | tool => true
  | _ => false
  end.

Section Turn.

Context {W : Type} {O : Outside W}.

Local Open Scope list_scope.

Definition weather_params (city : PyVal) : PyVal :=
  PyDict [("q", city); ("appid", OPENWEATHER_API_KEY); ("units", PyStr "metric")].

Definition weather_endpoint : string :=
  "http://api.openweathermap.org/data/2.5/weather".

(** The session once the lookup's one outbound call is made. *)
Definition looked_up (city : PyVal) (s : Session W) : Session W :=
  {| messages := messages s;
     world := snd (requests_get weather_endpoint (weather_params city) (world s));
     calls := calls s ++ [HttpGet weather_endpoint (weather_params city)] |}.

(** The outcome of the first completion call of a turn that starts in
    session [s] with input [u]. *)
Definition first_call (s : Session W) (u : string) : Result ChatCompletion.t * W :=
  completions_create
    (first_request (system_message :: messages s ++ [user_msg u])) (world s).

(** The session once that call is made, the world being [w1] after it. *)
Definition asked (s : Session W) (u : string) (w1 : W) : Session W :=
  {| messages := messages s ++ [user_msg u];
     world := w1;
     calls := calls s ++ [CompletionCall
                (first_request (system_message :: messages s ++ [user_msg u]))] |}.

(** The assistant message that records the tool calls of the reply [m]. *)
Definition requests_message (m : ChatMessage.t) : Msg.t :=
  {| Msg.role := assistant;
     Msg.content := Some (or_empty (ChatMessage.content m));
     Msg.tool_calls := Some (map tool_call_dict (requested_tool_calls m));
     Msg.tool_call_id := None |}.

(** The session as the loop over the tool calls finds it. *)
Definition before_tools (s : Session W) (u : string) (m : ChatMessage.t) (w1 : W)
  : Session W :=
  {| messages := messages s ++ [user_msg u; requests_message m];
     world := w1;
     calls := calls s ++ [CompletionCall
                (first_request (system_message :: messages s ++ [user_msg u]))] |}.

(** The outcome of the final completion call, made from session [s2]. *)
Definition final_call (s2 : Session W) : Result ChatCompletion.t * W :=
  completions_create (final_request (system_message :: messages s2)) (world s2).

(** The session once that call is made. *)
Definition asked_again (s2 : Session W) (w2 : W) : Session W :=
  {| messages := messages s2;
     world := w2;
     calls := calls s2 ++ [CompletionCall
                (final_request (system_message :: messages s2))] |}.

(** A session with one more assistant message. *)
Definition answered (s : Session W) (content : option string) : Session W :=
  {| messages := messages s ++ [assistant_message content];
     world := world s;
     calls := calls s |}.

Definition diagnostic (e : PyException) : string :=
  "Error communicating with Groq API: " ++ str_exn e.

(** The first completion call of the turn is answered by the message [m]. *)
Definition first_reply (s : Session W) (u : string) (m : ChatMessage.t) (w1 : W)
  : Prop :=
  exists response,
    first_call s u = (inr response, w1) /\ first_message response = inr m.

(** A completion call of the turn fails with [e]: the first one, or the
    final one after a completed tool round.  [at_failure] is the session at
    that point. *)
Inductive completion_fails (s : Session W) (u : string) (e : PyException)
  : Session W -> Prop :=
| first_call_fails w1 :
    first_call s u = (inl e, w1) ->
    completion_fails s u e (asked s u w1)
| final_call_fails m w1 tc tcs s2 w2 :
    first_reply s u m w1 ->
    requested_tool_calls m = tc :: tcs ->
    run_tool_calls (tc :: tcs) (before_tools s u m w1) = (inr tt, s2) ->
    final_call s2 = (inl e, w2) ->
    completion_fails s u e (asked_again s2 w2).

(** Does the first completion call of the turn ask for tools? *)
Definition asks_for_tools (s : Session W) (u : string) : bool :=
  match first_call s u with
  | (inr response, _) =>
      match first_message response with
      | inr m =>
          match requested_tool_calls m with
          | [] => false
          | _ :: _ => true
          end
      | inl _ => false
      end
  | (inl _, _) => false
  end.

(** No turn of the conversation [inputs], started in [s], asks for tools. *)
Fixpoint tool_free (s : Session W) (inputs : list string) : bool :=
  match inputs with
  | [] => true
  | u :: rest => negb (asks_for_tools s u) && tool_free (after_turn s u) rest
  end.

(** The tool calls [tcs] and the messages [msgs] correspond one to one, in
    order: each message is a tool result with the call's identifier. *)
Definition results_of (tcs : list ToolCall.t) (msgs : list Msg.t) : Prop :=
  Forall2 (fun tc msg =>
             Msg.role msg = tool /\
             Msg.tool_call_id msg = Some (ToolCall.id tc) /\
             Msg.tool_calls msg = None)
          tcs msgs.

(** The payload of [tc] makes the dispatcher raise [e]: it is not JSON, or
    the call is for [get_weather] and the parsed payload has no ["city"]. *)
Inductive bad_payload (tc : ToolCall.t) (e : PyException) : Prop :=
| not_json :
    json_loads (Fn.arguments (ToolCall.function tc)) = inl e ->
    bad_payload tc e
| no_city arguments :
    Fn.name (ToolCall.function tc) = "get_weather" ->
    json_loads (Fn.arguments (ToolCall.function tc)) = inr arguments ->
    py_getitem_str arguments "city" = inl e ->
    bad_payload tc e.

End Turn.

(* ===================================================================== *)
(** ** A reference JSON reader and a scripted outside world *)
(* ===================================================================== *)

(** The properties below hold for every [Outside].  To run the program on
    concrete conversations this part provides one: the network services
    answer from a script, and JSON text is read by a reader that follows
    [json.loads] (objects, arrays, strings with their escapes, numbers,
    [true], [false], [null]) on the documents of the runs.  It is a
    stand-in: a number with a fraction or an exponent is kept by its
    literal, which is its [repr] only when the literal is already in the
    form Python prints ([15.2], [4.1]); the offset of an error counts
    bytes, where Python counts characters; and not every message is worded
    as Python words it.  No property depends on it. *)
Module Json.

Definition is_ws (c : ascii) : bool :=
  Ascii.eqb c " " || Ascii.eqb c TAB || Ascii.eqb c LF || Ascii.eqb c CR.

Fixpoint skip_ws (s : string) : string :=
  match s with
  | String c r => if is_ws c then skip_ws r else s
  | EmptyString => s
  end.

Definition is_digit (c : ascii) : bool :=
  let n := nat_of_ascii c in Nat.leb 48 n && Nat.leb n 57.

(** The longest run of digits at the head of [s], and what follows. *)
Fixpoint digits (s : string) : string * string :=
  match s with
  | String c r =>
      if is_digit c then let (d, t) := digits r in (String c d, t)
      else (EmptyString, s)
  | EmptyString => (EmptyString, s)
  end.

Fixpoint Z_of_digits (acc : Z) (d : string) : Z :=
  match d with
  | String c r => Z_of_digits (10 * acc + Z.of_nat (nat_of_ascii c - 48)) r
  | EmptyString => acc
  end.

Fixpoint strip_prefix (p s : string) : option string :=
  match p, s with
  | EmptyString, _ => Some s
  | String a p', String b s' => if Ascii.eqb a b then strip_prefix p' s' else None
  | _, EmptyString => None
  end.

(** A failed read: the message and how many characters were left unread
    where it failed. *)
Definition Fail : Type := (string * nat)%type.

Definition fail_at {A} (msg : string) (rest : string) : Fail + A :=
  inl (msg, String.length rest).

(** A number at the head of [s]: an optional minus sign, [0] or a run of
    digits that does not start with [0], then optionally a point and
    digits, then optionally an exponent. *)
Definition number (s : string) : option (PyVal * string) :=
  let (neg, s1) := match s with
                   | String "-" r => (true, r)
                   | _ => (false, s)
                   end in
  let int_part :=
    match s1 with
    | String "0" r => Some ("0", r)
    | String c _ => if is_digit c then Some (digits s1) else None
    | EmptyString => None
    end in
  match int_part with
  | None => None
  | Some (i, s2) =>
      let (frac, s3) :=
        match s2 with
        | String "." r =>
            match digits r with
            | (EmptyString, _) => (EmptyString, s2)
            | (d, t) => (String "." d, t)
            end
        | _ => (EmptyString, s2)
        end in
      let (exp, s4) :=
        match s3 with
        | String e r =>
            if Ascii.eqb e "e" || Ascii.eqb e "E" then
              let (sign, r') := match r with
                                | String "+" t => ("+", t)
                                | String "-" t => ("-", t)
                                | _ => (EmptyString, r)
                                end in
              match digits r' with
              | (EmptyString, _) => (EmptyString, s3)
              | (d, t) => (String e (sign ++ d), t)
              end
            else (EmptyString, s3)
        | EmptyString => (EmptyString, s3)
        end in
      let sign := if neg then "-" else "" in
      match frac, exp with
      | EmptyString, EmptyString =>
          Some (PyInt (if neg then - Z_of_digits 0 i else Z_of_digits 0 i), s4)
      | _, _ => Some (PyFloat (sign ++ i ++ frac ++ exp), s4)
      end
  end.

Definition hex_value (c : ascii) : option nat :=
  let n := nat_of_ascii c in
  if is_digit c then Some (n - 48)
  else if Nat.leb 97 n && Nat.leb n 102 then Some (n - 87)
  else if Nat.leb 65 n && Nat.leb n 70 then Some (n - 55)
  else None.

(** Four hexadecimal digits at the head of [s]. *)
Definition hex4 (s : string) : option (N * string) :=
  match s with
  | String a (String b (String c (String d r))) =>
      match hex_value a, hex_value b, hex_value c, hex_value d with
      | Some x, Some y, Some z, Some t =>
          Some ((((N.of_nat x * 16 + N.of_nat y) * 16 + N.of_nat z) * 16
                 + N.of_nat t)%N, r)
      | _, _, _, _ => None
      end
  | _ => None
  end.

(** UTF-8 for a code point. *)
Definition utf8 (n : N) : string :=
  let b (k : N) := ascii_of_N k in
  (if n <? 128 then String (b n) ""
   else if n <? 2048 then String (b (192 + n / 64)) (String (b (128 + n mod 64)) "")
   else if n <? 65536 then
     String (b (224 + n / 4096))
       (String (b (128 + (n / 64) mod 64)) (String (b (128 + n mod 64)) ""))
   else
     String (b (240 + n / 262144))
       (String (b (128 + (n / 4096) mod 64))
          (String (b (128 + (n / 64) mod 64)) (String (b (128 + n mod 64)) ""))))%N.

(** The body of a string, the opening quote already read; [start] is the
    number of characters left at that quote. *)
Fixpoint string_body (fuel : nat) (start : nat) (s : string) : Fail + (string * string) :=
  match fuel with
  | O => inl ("Unterminated string starting at", start)
  | S fuel' =>
      match s with
      | EmptyString => inl ("Unterminated string starting at", start)
      | String c r =>
          if Ascii.eqb c DQUOTE then inr (EmptyString, r)
          else if Ascii.eqb c BACKSLASH then
            match r with
            | EmptyString => inl ("Unterminated string starting at", start)
            | String e r' =>
                let plain (x : ascii) :=
                  match string_body fuel' start r' with
                  | inr (t, rest) => inr (String x t, rest)
                  | inl f => inl f
                  end in
                if Ascii.eqb e DQUOTE then plain DQUOTE
                else if Ascii.eqb e BACKSLASH then plain BACKSLASH
                else if Ascii.eqb e "/" then plain "/"%char
                else if Ascii.eqb e "b" then plain (ascii_of_nat 8)
                else if Ascii.eqb e "f" then plain (ascii_of_nat 12)
                else if Ascii.eqb e "n" then plain LF
                else if Ascii.eqb e "r" then plain CR
                else if Ascii.eqb e "t" then plain TAB
                else if Ascii.eqb e "u" then
                  match hex4 r' with
                  | None => inl ("Invalid \uXXXX escape", String.length r)
                  | Some (hi, r'') =>
                      let single :=
                        match string_body fuel' start r'' with
                        | inr (t, rest) => inr (utf8 hi ++ t, rest)
                        | inl f => inl f
                        end in
                      if ((55296 <=? hi) && (hi <=? 56319))%N then
                        match r'' with
                        | String b1 (String b2 r3) =>
                            if Ascii.eqb b1 BACKSLASH && Ascii.eqb b2 "u" then
                              match hex4 r3 with
                              | Some (lo, r4) =>
                                  if ((56320 <=? lo) && (lo <=? 57343))%N then
                                    match string_body fuel' start r4 with
                                    | inr (t, rest) =>
                                        inr (utf8 (65536 + (hi - 55296) * 1024
                                                   + (lo - 56320))%N ++ t, rest)
                                    | inl f => inl f
                                    end
                                  else single
                              | None => single
                              end
                            else single
                        | _ => single
                        end
                      else single
                  end
                else inl ("Invalid \escape: " ++ repr_str (String e ""), String.length s)
            end
          else if Nat.ltb (nat_of_ascii c) 32
               then inl ("Invalid control character at", String.length s)
          else
            match string_body fuel' start r with
            | inr (t, rest) => inr (String c t, rest)
            | inl f => inl f
            end
      end
  end.

(** [dict(pairs)]: a repeated key keeps its first place and takes the last
    value. *)
Fixpoint dict_set (d : list (string * PyVal)) (k : string) (v : PyVal)
  : list (string * PyVal) :=
  match d with
  | [] => [(k, v)]
  | (k', x) :: r => if String.eqb k' k then (k', v) :: r else (k', x) :: dict_set r k v
  end.

Definition expecting_name : string :=
  "Expecting property name enclosed in double quotes".

Fixpoint value (fuel : nat) (s : string) {struct fuel} : Fail + (PyVal * string) :=
  match fuel with
  | O => fail_at "Expecting value" s
  | S fuel' =>
      match s with
      | String c r =>
          if Ascii.eqb c DQUOTE then
            match string_body (String.length r) (String.length s) r with
            | inr (t, rest) => inr (PyStr t, rest)
            | inl f => inl f
            end
          else if Ascii.eqb c "{" then
            let r1 := skip_ws r in
            match r1 with
            | String "}" rest => inr (PyDict [], rest)
            | String c1 _ =>
                if Ascii.eqb c1 DQUOTE then members fuel' [] r1
                else fail_at expecting_name r1
            | EmptyString => fail_at expecting_name r1
            end
          else if Ascii.eqb c "[" then
            let r1 := skip_ws r in
            match r1 with
            | String "]" rest => inr (PyList [], rest)
            | _ => elements fuel' [] r1
            end
          else
            match strip_prefix "null" s, strip_prefix "true" s, strip_prefix "false" s with
            | Some rest, _, _ => inr (PyNone, rest)
            | _, Some rest, _ => inr (PyBool true, rest)
            | _, _, Some rest => inr (PyBool false, rest)
            | _, _, _ =>
                match number s with
                | Some r => inr r
                | None =>
                    match strip_prefix "NaN" s, strip_prefix "Infinity" s,
                          strip_prefix "-Infinity" s with
                    | Some rest, _, _ => inr (PyFloat "nan", rest)
                    | _, Some rest, _ => inr (PyFloat "inf", rest)
                    | _, _, Some rest => inr (PyFloat "-inf", rest)
                    | _, _, _ => fail_at "Expecting value" s
                    end
                end
            end
      | EmptyString => fail_at "Expecting value" s
      end
  end

(** The members of an object from a key's opening quote on. *)
with members (fuel : nat) (acc : list (string * PyVal)) (s : string) {struct fuel}
  : Fail + (PyVal * string) :=
  match fuel with
  | O => fail_at "Expecting value" s
  | S fuel' =>
      match s with
      | String _ r =>
          match string_body (String.length r) (String.length s) r with
          | inl f => inl f
          | inr (k, r1) =>
              match skip_ws r1 with
              | String ":" r2 =>
                  match value fuel' (skip_ws r2) with
                  | inl f => inl f
                  | inr (v, r3) =>
                      let acc' := dict_set acc k v in
                      match skip_ws r3 with
                      | String "}" rest => inr (PyDict acc', rest)
                      | String "," r4 =>
                          let r5 := skip_ws r4 in
                          match r5 with
                          | String c5 _ =>
                              if Ascii.eqb c5 DQUOTE then members fuel' acc' r5
                              else fail_at expecting_name r5
                          | EmptyString => fail_at expecting_name r5
                          end
                      | r3' => fail_at "Expecting ',' delimiter" r3'
                      end
                  end
              | r1' => fail_at "Expecting ':' delimiter" r1'
              end
          end
      | EmptyString => fail_at expecting_name s
      end
  end

(** The elements of an array from an element's first character on. *)
with elements (fuel : nat) (acc : list PyVal) (s : string) {struct fuel}
  : Fail + (PyVal * string) :=
  match fuel with
  | O => fail_at "Expecting value" s
  | S fuel' =>
      match value fuel' s with
      | inl f => inl f
      | inr (v, r1) =>
          let acc' := (acc ++ [v])%list in
          match skip_ws r1 with
          | String "]" rest => inr (PyList acc', rest)
          | String "," r2 => elements fuel' acc' (skip_ws r2)
          | r1' => fail_at "Expecting ',' delimiter" r1'
          end
      end
  end.

(** [json.loads(doc)] *)
Definition loads (doc : string) : Result PyVal :=
  let n := String.length doc in
  match value (2 * n + 2) (skip_ws doc) with
  | inl (msg, unread) => inl (JSONDecodeError msg doc (n - unread))
  | inr (v, rest) =>
      match skip_ws rest with
      | EmptyString => inr v
      | rest' => inl (JSONDecodeError "Extra data" doc (n - String.length rest'))
      end
  end.

(** One character of a JSON string as [json.dumps] writes it. *)
Definition dumps_char (c : ascii) : string :=
  let n := nat_of_ascii c in
  if Ascii.eqb c DQUOTE then String BACKSLASH (String DQUOTE "")
  else if Ascii.eqb c BACKSLASH then String BACKSLASH (String BACKSLASH "")
  else if Ascii.eqb c LF then String BACKSLASH "n"
  else if Ascii.eqb c CR then String BACKSLASH "r"
  else if Ascii.eqb c TAB then String BACKSLASH "t"
  else if Nat.ltb n 32
       then String BACKSLASH
              (String "u" (String "0" (String "0"
                 (String (hex_digit (n / 16)) (String (hex_digit (n mod 16)) "")))))
  else String c "".

Definition dumps_str (s : string) : string :=
  String DQUOTE (string_flat_map dumps_char s) ++ String DQUOTE "".

(** [json.dumps(v)], used to write the documents of the examples. *)
Fixpoint dumps (v : PyVal) : string :=
  match v with
  | PyNone => "null"
  | PyBool true => "true"
  | PyBool false => "false"
  | PyInt n => str_of_Z n
  | PyFloat r => r
  | PyStr s => dumps_str s
  | PyList l => "[" ++ join ", " (map dumps l) ++ "]"
  | PyDict d =>
      "{" ++ join ", " (map (fun kv => match kv with
                                       | (k, x) => dumps_str k ++ ": " ++ dumps x
                                       end) d) ++ "}"
  end.

End Json.

Module Script.

(** The answers the two services will give, in the order the calls come.
    A call that finds its script empty fails the way a network that is
    down makes it fail. *)
Record World : Type := {
  completions : list (Result ChatCompletion.t);
  weather : list (Result Response)
}.

Definition scripted_create (_ : Req.t) (w : World) : Result ChatCompletion.t * World :=
  match completions w with
  | r :: rest => (r, {| completions := rest; weather := weather w |})
  | [] => (inl (APIError "Connection error."), w)
  end.

Definition scripted_get (_ : string) (_ : PyVal) (w : World) : Result Response * World :=
  match weather w with
  | r :: rest => (r, {| completions := completions w; weather := rest |})
  | [] => (inl (RequestException "Connection refused"), w)
  end.

#[export] Instance outside : Outside World := {
  json_loads := Json.loads;
  str_capitalize := capitalize;
  requests_get := scripted_get;
  completions_create := scripted_create;
  OPENWEATHER_API_KEY := PyStr "0123456789abcdef"
}.

(** A fresh session in a world that will give these answers. *)
Definition start (llm : list (Result ChatCompletion.t)) (http : list (Result Response))
  : Session World :=
  {| messages := [];
     world := {| completions := llm; weather := http |};
     calls := [] |}.

(** A completion whose single choice is plain text. *)
Definition says (content : string) : Result ChatCompletion.t :=
  inr {| ChatCompletion.choices :=
           [{| ChatMessage.content := Some content;
               ChatMessage.tool_calls := None |}] |}.

(** A completion whose single choice asks for tool calls. *)
Definition asks (tool_calls : list ToolCall.t) : Result ChatCompletion.t :=
  inr {| ChatCompletion.choices :=
           [{| ChatMessage.content := None;
               ChatMessage.tool_calls := Some tool_calls |}] |}.

Definition call (id name arguments : string) : ToolCall.t :=
  {| ToolCall.id := id;
     ToolCall.function := {| Fn.name := name; Fn.arguments := arguments |} |}.

Definition weather_url : string := "http://api.openweathermap.org/data/2.5/weather".

(** The provider's answer for London in the specification's scenario. *)
Definition london_json : PyVal :=
  PyDict [
    ("coord", PyDict [("lon", PyFloat "-0.1257"); ("lat", PyFloat "51.5085")]);
    ("weather", PyList [PyDict [("id", PyInt 500);
                                ("main", PyStr "Rain");
                                ("description", PyStr "light rain")]]);
    ("main", PyDict [("temp", PyFloat "15.2");
                     ("feels_like", PyFloat "14.8");
                     ("pressure", PyInt 1012);
                     ("humidity", PyInt 70)]);
    ("wind", PyDict [("speed", PyFloat "4.1"); ("deg", PyInt 240)]);
    ("sys", PyDict [("country", PyStr "GB")]);
    ("name", PyStr "London");
    ("cod", PyInt 200)
  ].

Definition london_response : Response :=
  {| status_code := 200;
     reason := "OK";
     url := weather_url ++ "?q=London&appid=0123456789abcdef&units=metric";
     text := Json.dumps london_json |}.

Definition london_ok : Result Response := inr london_response.

Definition not_found_response (city : string) : Response :=
  {| status_code := 404;
     reason := "Not Found";
     url := weather_url ++ "?q=" ++ city ++ "&appid=0123456789abcdef&units=metric";
     text := Json.dumps (PyDict [("cod", PyStr "404");
                                 ("message", PyStr "city not found")]) |}.

Definition not_found (city : string) : Result Response :=
  inr (not_found_response city).

(** The world once its scripts are used up. *)
Definition silent : World := {| completions := []; weather := [] |}.

Definition city_args (city : string) : string :=
  Json.dumps (PyDict [("city", PyStr city)]).

Definition london_call : ToolCall.t := call "call_1" "get_weather" (city_args "London").
Definition zzqqxx_call : ToolCall.t := call "call_2" "get_weather" (city_args "Zzqqxx").
Definition broken_call : ToolCall.t := call "call_3" "get_time" "not json".
Definition cityless_call : ToolCall.t :=
  call "call_4" "get_weather" (Json.dumps (PyDict [("town", PyStr "London")])).
Definition other_call : ToolCall.t :=
  call "call_5" "get_time" (Json.dumps (PyDict [("zone", PyStr "UTC")])).

(** What the lookup makes of the provider's answer for London, and the
    text the dispatcher renders from it. *)
Definition london_info : Weather.Info :=
  {| Weather.city := PyStr "London";
     Weather.country := PyStr "GB";
     Weather.temperature := PyFloat "15.2";
     Weather.feels_like := PyFloat "14.8";
     Weather.humidity := PyInt 70;
     Weather.description := PyStr "light rain";
     Weather.wind_speed := PyFloat "4.1" |}.

Definition london_text : string :=
"Weather in London, GB:
- Temperature: 15.2°C (feels like 14.8°C)
- Conditions: Light rain
- Humidity: 70%
- Wind Speed: 4.1 m/s".

Definition params_for (city : string) : PyVal :=
  PyDict [("q", PyStr city);
          ("appid", PyStr "0123456789abcdef");
          ("units", PyStr "metric")].

(** The reply that asks for the calls [tcs]. *)
Definition request_for (tcs : list ToolCall.t) : ChatMessage.t :=
  {| ChatMessage.content := None; ChatMessage.tool_calls := Some tcs |}.

(** The conversations of the examples: the session each starts in, what
    the user types, and the sessions on the way. *)
Definition london_answer : string :=
  "It is 15.2 degrees with light rain in London.".
Definition london_session : Session World :=
  start [asks [london_call]; says london_answer] [london_ok].
Definition london_question : string := "What's the weather in London?".
Definition london_asked : World :=
  {| completions := [says london_answer]; weather := [london_ok] |}.
Definition london_tools_done : Session World :=
  {| messages := [user_msg london_question;
                  requests_message (request_for [london_call]);
                  tool_message london_call london_text];
     world := {| completions := [says london_answer]; weather := [] |};
     calls := [CompletionCall (first_request [system_message; user_msg london_question]);
               HttpGet weather_url (params_for "London")] |}.

Definition zzqqxx_session : Session World :=
  start [asks [zzqqxx_call]; says "I could not find that city."]
        [not_found "Zzqqxx"].
Definition zzqqxx_question : string := "weather in Zzqqxx".

Definition broken_session : Session World :=
  start [asks [broken_call]; says "It is noon."] [].
Definition broken_question : string := "What time is it?".

Definition mixed_session : Session World :=
  start [asks [other_call; cityless_call; london_call]; says "Done."] [london_ok].
Definition mixed_question : string := "Time and weather, please.".
Definition mixed_asked : World :=
  {| completions := [says "Done."]; weather := [london_ok] |}.
Definition mixed_stopped : Session World :=
  {| messages := [user_msg mixed_question;
                  requests_message (request_for [other_call; cityless_call; london_call]);
                  tool_message other_call "Unknown tool"];
     world := mixed_asked;
     calls := [CompletionCall (first_request [system_message; user_msg mixed_question])] |}.

Definition hello_session : Session World :=
  start [says "Hello! How can I help?"; says "You are welcome."] [].

Definition offline_session : Session World := start [] [].

(** The completion endpoint goes down after it asked for the lookup. *)
Definition cut_off_session : Session World :=
  start [asks [london_call]] [london_ok].
Definition cut_off_asked : World :=
  {| completions := []; weather := [london_ok] |}.
Definition cut_off_tools_done : Session World :=
  {| messages := [user_msg london_question;
                  requests_message (request_for [london_call]);
                  tool_message london_call london_text];
     world := silent;
     calls := [CompletionCall (first_request [system_message; user_msg london_question]);
               HttpGet weather_url (params_for "London")] |}.

End Script.

(* ===================================================================== *)
(** ** The page *)
(* ===================================================================== *)

(** What one run of [main] puts on the page: the calls to [st.*] in the
    order they are made, a [with] block holding what is drawn inside it. *)
Module St.
Inductive Element : Type :=
| set_page_config (page_title layout : string)
| title (body : string)
| markdown (body : option string)
| error (body : string)
| info (body : string)
| header (body : string)
| chat_input (placeholder : string)
| button (label : string)
| chat_message (name : string) (inside : list Element)
| spinner (text : string) (inside : list Element)
| sidebar (inside : list Element).
End St.

(** How a run of the script ends: at its last line, at [st.stop()], at
    [st.rerun()], or with an exception. *)
Inductive Outcome : Type :=
| Finished
| Stopped
| Rerun
| Raised (e : PyException).

(** What the widgets return in this run: the text submitted to
    [st.chat_input] if any, and whether the button was clicked. *)
Record Widgets : Type := {
  submitted : option string;
  clicked : bool
}.

(** What outlives a run: [st.session_state], whose [messages] entry may not
    exist yet, the outside world, and the log of outbound calls. *)
Record Browser (W : Type) : Type := {
  session_messages : option (list Msg.t);
  outside_world : W;
  outbound : list Event
}.
Arguments session_messages {W} _.
Arguments outside_world {W} _.
Arguments outbound {W} _.

(** [bool(v)] *)
Definition py_bool (v : PyVal) : bool :=
  match v with
  | PyNone => false
  | PyBool b => b
  | PyInt n => negb (n =? 0)%Z
  | PyFloat r => negb (String.eqb r "0.0" || String.eqb r "-0.0")
  | PyStr s => negb (String.eqb s "")
  | PyList l => match l with [] => false | _ :: _ => true end
  | PyDict d => match d with [] => false | _ :: _ => true end
  end.

(** [bool(x)] for the result of [os.getenv] or of [st.chat_input]: a text
    or [None]. *)
Definition text_bool (x : option string) : bool :=
  match x with
  | Some t => negb (String.eqb t "")
  | None => false
  end.

Definition SIDEBAR_TEXT : string :=
  String LF "        - " ++ String DQUOTE "What's the weather in Tokyo?" ++ String DQUOTE (String LF
  "        - ") ++ String DQUOTE "How's the weather in London?" ++ String DQUOTE (String LF
  "        - ") ++ String DQUOTE "Tell me about the weather in New York" ++ String DQUOTE (String LF
  "        - Or just chat normally!") ++ String LF "        ".

Module Page.
Section WithOutside.

Context {W : Type} {O : Outside W}.

Local Open Scope list_scope.

(** The body of the loop over the history: user and assistant messages
    are drawn, the others are passed over. *)
Definition draw (message : Msg.t) : list St.Element :=
  match Msg.role message with
  | user => [St.chat_message "user" [St.markdown (Msg.content message)]]
  | assistant => [St.chat_message "assistant" [St.markdown (Msg.content message)]]
  | _ => []
  end.

Definition session_of (b : Browser W) (history : list Msg.t) : Session W :=
  {| messages := history; world := outside_world b; calls := outbound b |}.

Definition browser_of (s : Session W) : Browser W :=
  {| session_messages := Some (messages s);
     outside_world := world s;
     outbound := calls s |}.

Definition main (GROQ_API_KEY : option string) (widgets : Widgets) (b : Browser W)
  : list St.Element * Outcome * Browser W :=
  let top :=
    [St.set_page_config "AI Weather Chatbot" "centered";
     St.title " AI Weather Chatbot";
     St.markdown (Some "*Powered by Groq (Llama 3.1) & OpenWeatherMap*"%string)] in
  if negb (text_bool GROQ_API_KEY) || negb (py_bool OPENWEATHER_API_KEY) then
    (top ++
     [St.error "API keys not found! Please set up your `.env` file with GROQ_API_KEY and OPENWEATHER_API_KEY";
      St.info "Copy `.env.example` to `.env` and add your API keys"],
     Stopped, b)
  else
    let history :=
      match session_messages b with
      | Some history => history
      | None => []
      end in
    let drawn :=
      top ++ flat_map draw history
          ++ [St.chat_input "Ask me anything or request weather information..."] in
    let turn :=
      if text_bool (submitted widgets) then
        let prompt := match submitted widgets with Some t => t | None => ""%string end in
        let asked := [St.chat_message "user" [St.markdown (Some prompt)]] in
        match chat_with_groq prompt (session_of b history) with
        | (inr response, s) =>
            (drawn ++ asked ++
             [St.chat_message "assistant"
                [St.spinner "Thinking..." [St.markdown response]]],
             None, s)
        | (inl e, s) =>
            (drawn ++ asked ++
             [St.chat_message "assistant" [St.spinner "Thinking..." []]],
             Some e, s)
        end
      else (drawn, None, session_of b history) in
    match turn with
    | (elements, Some e, s) => (elements, Raised e, browser_of s)
    | (elements, None, s) =>
        let all :=
          elements ++
          [St.sidebar [St.header "Try asking:";
                       St.markdown (Some SIDEBAR_TEXT);
                       St.button "Clear Chat History"]] in
        if clicked widgets
        then (all, Rerun,
              {| session_messages := Some [];
                 outside_world := world s;
                 outbound := calls s |})
        else (all, Finished, browser_of s)
    end.

(** A run in which no widget was used. *)
Definition idle : Widgets := {| submitted := None; clicked := false |}.

(** A visit of the page: the run the user's action triggers and, when it
    asks for one, the rerun, in which the widgets are at rest. *)
Definition visit (GROQ_API_KEY : option string) (widgets : Widgets) (b : Browser W)
  : list St.Element * Outcome * Browser W :=
  match main GROQ_API_KEY widgets b with
  | (_, Rerun, b') => main GROQ_API_KEY idle b'
  | finished => finished
  end.

End WithOutside.
End Page.

(** The chat bubbles among the elements of a page: who speaks and what is
    written. *)
Definition bubble (element : St.Element) : list (string * option string) :=
  match element with
  | St.chat_message name [St.markdown body] => [(name, body)]
  | St.chat_message name [St.spinner _ [St.markdown body]] => [(name, body)]
  | _ => []
  end.

Definition bubbles (elements : list St.Element) : list (string * option string) :=
  flat_map bubble elements.

(** The bubbles the history [history] is drawn as. *)
Definition transcript (history : list Msg.t) : list (string * option string) :=
  flat_map (fun m =>
              match Msg.role m with
              | user => [("user"%string, Msg.content m)]
              | assistant => [("assistant"%string, Msg.content m)]
              | _ => []
              end) history.

(** Both credentials are set to a text that is not empty. *)
Definition credentials_set {W : Type} {O : Outside W} (GROQ_API_KEY : option string)
  : bool :=
  text_bool GROQ_API_KEY && py_bool OPENWEATHER_API_KEY.

(** The history a run finds: the stored one, or the empty one it creates. *)
Definition stored_history {W : Type} (b : Browser W) : list Msg.t :=
  match session_messages b with
  | Some history => history
  | None => []
  end.

(** A call for the tool [get_weather]. *)
Definition is_weather_call (tc : ToolCall.t) : bool :=
  String.eqb (Fn.name (ToolCall.function tc)) "get_weather".

(** A message of the kind a turn appends after the user's: an assistant
    message or a tool result. *)
Definition is_reply (m : Msg.t) : bool :=
  match Msg.role m with
  | assistant | tool => true
  | _ => false
  end.

(** The provider call a dispatched tool call makes, if any: one for a
    [get_weather] call whose payload is JSON and has a ["city"], none
    otherwise. *)
Definition lookup_of {W : Type} {O : Outside W} (tc : ToolCall.t) : list Event :=
  match json_loads (Fn.arguments (ToolCall.function tc)) with
  | inr arguments =>
      if is_weather_call tc then
        match py_getitem_str arguments "city" with
        | inr city => [HttpGet weather_endpoint (weather_params city)]
        | inl _ => []
        end
      else []
  | inl _ => []
  end.

(** The browsers of the examples. *)
Module Visits.
Import Script.

Definition GROQ_API_KEY : option string := Some "gsk_0123456789"%string.

Definition first_visit : Browser World :=
  {| session_messages := None;
     outside_world := world hello_session;
     outbound := [] |}.

Definition london_visit : Browser World :=
  {| session_messages := Some [];
     outside_world := world london_session;
     outbound := [] |}.

Definition ask (prompt : string) : Widgets :=
  {| submitted := Some prompt; clicked := false |}.

Definition clear : Widgets := {| submitted := None; clicked := true |}.

(** Answers of the provider that are not the weather of a city. *)
Definition answer (status : Z) (reason body : string) : Response :=
  {| status_code := status; reason := reason; url := weather_url; text := body |}.

Definition server_error : Response :=
  answer 500 "Internal Server Error" "".

Definition web_page : Response := answer 200 "OK" "<html>".

Definition error_body : Response :=
  answer 200 "OK"
    (Json.dumps (PyDict [("cod", PyInt 429); ("message", PyStr "quota exceeded")])).

Definition no_conditions_json : PyVal :=
  PyDict [("weather", PyList []);
          ("main", PyDict [("temp", PyFloat "15.2");
                           ("feels_like", PyFloat "14.8");
                           ("humidity", PyInt 70)]);
          ("wind", PyDict [("speed", PyFloat "4.1")]);
          ("sys", PyDict [("country", PyStr "GB")]);
          ("name", PyStr "London")].

Definition no_conditions : Response :=
  answer 200 "OK" (Json.dumps no_conditions_json).

(** An answer that gives the conditions as a code, not as a text. *)
Definition coded_conditions_json : PyVal :=
  PyDict [("weather", PyList [PyDict [("id", PyInt 500);
                                      ("description", PyInt 500)]]);
          ("main", PyDict [("temp", PyFloat "15.2");
                           ("feels_like", PyFloat "14.8");
                           ("humidity", PyInt 70)]);
          ("wind", PyDict [("speed", PyFloat "4.1")]);
          ("sys", PyDict [("country", PyStr "GB")]);
          ("name", PyStr "London")].

Definition coded_conditions : Response :=
  answer 200 "OK" (Json.dumps coded_conditions_json).

Definition coded_info : Weather.Info :=
  {| Weather.city := PyStr "London";
     Weather.country := PyStr "GB";
     Weather.temperature := PyFloat "15.2";
     Weather.feels_like := PyFloat "14.8";
     Weather.humidity := PyInt 70;
     Weather.description := PyInt 500;
     Weather.wind_speed := PyFloat "4.1" |}.

(** The session a round of two calls, one of them a lookup, leaves. *)
Definition two_calls_done : Session World :=
  {| messages := [tool_message other_call "Unknown tool";
                  tool_message london_call london_text];
     world := silent;
     calls := [HttpGet weather_url (params_for "London")] |}.

End Visits.


(* ===================================================================== *)
(** ** Properties *)
(* ===================================================================== *)

Section Properties.

Context {W : Type} {O : Outside W}.

Local Open Scope list_scope.

Lemma bind_lift {A B} (r : Result A) (k : A -> M B) (s : Session W) :
  bind (lift r) k s =
  match r with
  | inl e => (inl e, s)
  | inr a => k a s
  end.
Proof. unfold bind, lift. destruct r; reflexivity. Qed.

Lemma bind_ret {A B} (a : A) (k : A -> M B) (s : Session W) :
  bind (ret a) k s = k a s.
Proof. reflexivity. Qed.

Lemma bind_append {B} (m : Msg.t) (k : unit -> M B) (s : Session W) :
  bind (append_message m) k s =
  k tt {| messages := messages s ++ [m]; world := world s; calls := calls s |}.
Proof. reflexivity. Qed.

Lemma bind_get_messages {B} (k : list Msg.t -> M B) (s : Session W) :
  bind get_messages k s = k (messages s) s.
Proof. reflexivity. Qed.

(** The handlers of [get_weather] turn every exception into a failure
    record and leave the session as it is. *)
Lemma get_weather_handler_total (city : PyVal) (e : PyException) (s : Session W) :
  exists reason,
    match e with
    | HTTPError _ response =>
        if (status_code response =? 404)%Z
        then ret (Weather.Failure
                    ("City '" ++ py_str city
                       ++ "' not found. Please check the spelling."))
        else ret (Weather.Failure ("HTTP error occurred: " ++ str_exn e))
    | _ => ret (Weather.Failure ("Error fetching weather data: " ++ str_exn e))
    end s = (inr (Weather.Failure reason), s).
Proof.
  destruct e; try (eexists; reflexivity).
  destruct (status_code response =? 404)%Z; eexists; reflexivity.
Qed.

Lemma get_weather_total (city : PyVal) (s : Session W) :
  exists result, get_weather city s = (inr result, looked_up city s).
Proof.
  unfold get_weather, looked_up, weather_endpoint, weather_params, try_except.
  unfold bind at 1. unfold http_get at 1.
  destruct (requests_get _ _ (world s)) as [[e | response] w]; cbn [snd].
  - destruct (get_weather_handler_total city e
                {| messages := messages s; world := w;
                   calls := calls s ++ [HttpGet "http://api.openweathermap.org/data/2.5/weather"
                     (PyDict [("q", city); ("appid", OPENWEATHER_API_KEY);
                              ("units", PyStr "metric")])] |}) as [reason Hr].
    exists (Weather.Failure reason). exact Hr.
  - repeat
      (rewrite bind_lift; cbn beta iota;
       try match goal with
       | |- exists _, (let (_, _) := match ?x with _ => _ end in _) = _ =>
           let e := fresh "e" in
           destruct x as [e | ?];
           [ match goal with
             | |- exists _, ?h ?st = _ =>
                 destruct (get_weather_handler_total city e st) as [reason Hr];
                 exists (Weather.Failure reason); exact Hr
             end
           | ]
       end).
    eexists; reflexivity.
Qed.

(** *** The dispatcher, case by case *)

Lemma execute_tool_call_not_json tc e (s : Session W) :
  json_loads (Fn.arguments (ToolCall.function tc)) = inl e ->
  execute_tool_call tc s = (inl e, s).
Proof.
  intros Hj. unfold execute_tool_call. rewrite bind_lift, Hj. reflexivity.
Qed.

Lemma execute_tool_call_other_name tc arguments (s : Session W) :
  json_loads (Fn.arguments (ToolCall.function tc)) = inr arguments ->
  Fn.name (ToolCall.function tc) <> "get_weather" ->
  execute_tool_call tc s = (inr "Unknown tool", s).
Proof.
  intros Hj Hn. unfold execute_tool_call. rewrite bind_lift, Hj.
  apply String.eqb_neq in Hn. rewrite Hn. reflexivity.
Qed.

Lemma execute_tool_call_no_city tc arguments e (s : Session W) :
  Fn.name (ToolCall.function tc) = "get_weather" ->
  json_loads (Fn.arguments (ToolCall.function tc)) = inr arguments ->
  py_getitem_str arguments "city" = inl e ->
  execute_tool_call tc s = (inl e, s).
Proof.
  intros Hn Hj Hc. unfold execute_tool_call. rewrite bind_lift, Hj, Hn.
  rewrite String.eqb_refl. cbn beta iota. rewrite bind_lift, Hc. reflexivity.
Qed.

Lemma execute_tool_call_lookup tc arguments city result (s s' : Session W) :
  Fn.name (ToolCall.function tc) = "get_weather" ->
  json_loads (Fn.arguments (ToolCall.function tc)) = inr arguments ->
  py_getitem_str arguments "city" = inr city ->
  get_weather city s = (inr result, s') ->
  execute_tool_call tc s =
  match result with
  | Weather.Success data =>
      match py_capitalize (Weather.description data) with
      | inr description => (inr (weather_text data description), s')
      | inl e => (inl e, s')
      end
  | Weather.Failure error => (inr error, s')
  end.
Proof.
  intros Hn Hj Hc Hw. unfold execute_tool_call. rewrite bind_lift, Hj, Hn.
  rewrite String.eqb_refl. cbn beta iota. rewrite bind_lift, Hc.
  cbn beta iota. unfold bind at 1. rewrite Hw.
  destruct result as [data | error]; [ | reflexivity ].
  rewrite bind_lift. destruct (py_capitalize _); reflexivity.
Qed.

(** The dispatcher never touches the history, and the only calls it makes
    are lookups. *)
Lemma execute_tool_call_frame tc (s : Session W) :
  exists gets,
    messages (snd (execute_tool_call tc s)) = messages s /\
    calls (snd (execute_tool_call tc s)) = calls s ++ gets /\
    forallb is_http_get gets = true.
Proof.
  destruct (json_loads (Fn.arguments (ToolCall.function tc))) as [e | arguments] eqn:Hj.
  { rewrite (execute_tool_call_not_json _ _ _ Hj). exists []. cbn.
    rewrite app_nil_r. auto. }
  destruct (string_dec (Fn.name (ToolCall.function tc)) "get_weather") as [Hn | Hn].
  2:{ rewrite (execute_tool_call_other_name _ _ _ Hj Hn). exists []. cbn.
      rewrite app_nil_r. auto. }
  destruct (py_getitem_str arguments "city") as [e | city] eqn:Hc.
  { rewrite (execute_tool_call_no_city _ _ _ _ Hn Hj Hc). exists []. cbn.
    rewrite app_nil_r. auto. }
  destruct (get_weather_total city s) as [result Hw].
  rewrite (execute_tool_call_lookup _ _ _ _ _ _ Hn Hj Hc Hw).
  exists [HttpGet weather_endpoint (weather_params city)].
  destruct result as [data | error]; [ destruct (py_capitalize _) | ]; cbn; auto.
Qed.

(** *** The loop over the tool calls *)

Lemma run_tool_calls_app (done rest : list ToolCall.t) (s : Session W) :
  run_tool_calls (done ++ rest) s =
  match run_tool_calls done s with
  | (inr _, s1) => run_tool_calls rest s1
  | (inl e, s1) => (inl e, s1)
  end.
Proof.
  revert s. induction done as [ | tc done IH]; intros s; cbn [run_tool_calls app].
  - reflexivity.
  - unfold bind at 1 3. destruct (execute_tool_call tc s) as [[e | r] s1].
    + reflexivity.
    + rewrite !bind_append. apply IH.
Qed.

(** A completed loop has appended one tool result per call, in order, and
    has made lookups only. *)
Lemma run_tool_calls_completed (tcs : list ToolCall.t) (s s2 : Session W) :
  run_tool_calls tcs s = (inr tt, s2) ->
  exists msgs gets,
    messages s2 = messages s ++ msgs /\
    results_of tcs msgs /\
    calls s2 = calls s ++ gets /\
    forallb is_http_get gets = true.
Proof.
  revert s. induction tcs as [ | tc tcs IH]; intros s; cbn [run_tool_calls].
  - intros Hr. injection Hr as <-. exists [], []. rewrite !app_nil_r.
    repeat split. constructor.
  - unfold bind at 1.
    destruct (execute_tool_call_frame tc s) as (gets1 & Hm1 & Hc1 & Hg1).
    destruct (execute_tool_call tc s) as [[e | r] s1]; [ discriminate | ].
    cbn [snd] in *. rewrite bind_append. intros Hr.
    destruct (IH _ Hr) as (msgs & gets & Hm & Hres & Hc & Hg).
    cbn [messages calls] in *.
    exists (tool_message tc r :: msgs), (gets1 ++ gets).
    rewrite Hm, Hm1, Hc, Hc1, <- !app_assoc. repeat split.
    + constructor; [ cbn; auto | exact Hres ].
    + rewrite forallb_app, Hg1, Hg. reflexivity.
Qed.

(** A loop that stops on an exception has appended the results of the
    calls before the failing one, and nothing for it. *)
Lemma run_tool_calls_raised (tcs : list ToolCall.t) (e : PyException) (s s2 : Session W) :
  run_tool_calls tcs s = (inl e, s2) ->
  exists done tc rest msgs gets,
    tcs = done ++ tc :: rest /\
    messages s2 = messages s ++ msgs /\
    results_of done msgs /\
    calls s2 = calls s ++ gets /\
    forallb is_http_get gets = true.
Proof.
  revert s. induction tcs as [ | tc tcs IH]; intros s; cbn [run_tool_calls].
  - discriminate.
  - unfold bind at 1.
    destruct (execute_tool_call_frame tc s) as (gets1 & Hm1 & Hc1 & Hg1).
    destruct (execute_tool_call tc s) as [[e1 | r] s1]; cbn [snd] in *.
    + intros Hr. injection Hr as <- <-.
      exists [], tc, tcs, [], gets1. rewrite app_nil_r.
      repeat split; auto. constructor.
    + rewrite bind_append. intros Hr.
      destruct (IH _ Hr) as (done & tc' & rest & msgs & gets & -> & Hm & Hres & Hc & Hg).
      cbn [messages calls] in *.
      exists (tc :: done), tc', rest, (tool_message tc r :: msgs), (gets1 ++ gets).
      rewrite Hm, Hm1, Hc, Hc1, <- !app_assoc. repeat split.
      * constructor; [ cbn; auto | exact Hres ].
      * rewrite forallb_app, Hg1, Hg. reflexivity.
Qed.

(** *** The orchestrator, path by path *)

Ltac enter_turn :=
  unfold chat_with_groq; rewrite bind_append, bind_get_messages;
  cbn [messages]; unfold try_except; unfold bind at 1; unfold create at 1;
  cbn [world messages calls].

Lemma chat_first_call_fails (s : Session W) (u : string) e w1 :
  first_call s u = (inl e, w1) ->
  chat_with_groq u s =
  (inr (Some (diagnostic e)), answered (asked s u w1) (Some (diagnostic e))).
Proof.
  intros H1. enter_turn. unfold first_call in H1. rewrite H1. reflexivity.
Qed.

Lemma chat_first_no_choice (s : Session W) (u : string) response e w1 :
  first_call s u = (inr response, w1) ->
  first_message response = inl e ->
  chat_with_groq u s =
  (inr (Some (diagnostic e)), answered (asked s u w1) (Some (diagnostic e))).
Proof.
  intros H1 H2. enter_turn. unfold first_call in H1. rewrite H1.
  rewrite bind_lift, H2. reflexivity.
Qed.

Lemma chat_plain (s : Session W) (u : string) m w1 :
  first_reply s u m w1 ->
  requested_tool_calls m = [] ->
  chat_with_groq u s =
  (inr (ChatMessage.content m), answered (asked s u w1) (ChatMessage.content m)).
Proof.
  intros (response & H1 & H2) H3. enter_turn. unfold first_call in H1.
  rewrite H1, bind_lift, H2. cbn beta iota. rewrite H3. reflexivity.
Qed.

(** What the turn does once the reply [m] has asked for tools: it depends
    on the loop and on the final call only. *)
Lemma chat_tool_round (s : Session W) (u : string) m w1 tc tcs :
  first_reply s u m w1 ->
  requested_tool_calls m = tc :: tcs ->
  chat_with_groq u s =
  match run_tool_calls (tc :: tcs) (before_tools s u m w1) with
  | (inl e, s2) => (inr (Some (diagnostic e)), answered s2 (Some (diagnostic e)))
  | (inr _, s2) =>
      match final_call s2 with
      | (inl e, w2) =>
          (inr (Some (diagnostic e)),
           answered (asked_again s2 w2) (Some (diagnostic e)))
      | (inr response, w2) =>
          match first_message response with
          | inl e =>
              (inr (Some (diagnostic e)),
               answered (asked_again s2 w2) (Some (diagnostic e)))
          | inr m2 =>
              (inr (ChatMessage.content m2),
               answered (asked_again s2 w2) (ChatMessage.content m2))
          end
      end
  end.
Proof.
  intros (response & H1 & H2) H3. enter_turn. unfold first_call in H1.
  rewrite H1, bind_lift, H2. cbn beta iota. rewrite H3.
  unfold bind at 1. rewrite bind_append. unfold bind at 1.
  unfold before_tools, requests_message. rewrite H3.
  replace (messages s ++ [user_msg u; _]) with
    ((messages s ++ [user_msg u]) ++
       [{| Msg.role := assistant;
           Msg.content := Some (or_empty (ChatMessage.content m));
           Msg.tool_calls := Some (map tool_call_dict (tc :: tcs));
           Msg.tool_call_id := None |}])
    by (rewrite <- app_assoc; reflexivity).
  destruct (run_tool_calls (tc :: tcs) _) as [[e | []] s2]; [ reflexivity | ].
  rewrite bind_get_messages. unfold bind at 1. unfold create at 1.
  unfold final_call.
  destruct (completions_create _ (world s2)) as [[e | response2] w2];
    [ reflexivity | ].
  rewrite bind_lift. destruct (first_message response2); reflexivity.
Qed.

(** Every turn returns an answer; it leaves what was in the history where
    it was, puts the user message right behind it, and ends the history
    with an assistant message holding the answer. *)
Lemma chat_with_groq_returns (s : Session W) (u : string) :
  exists answer between,
    fst (chat_with_groq u s) = inr answer /\
    messages (after_turn s u) =
      messages s ++ user_msg u :: between ++ [assistant_message answer].
Proof.
  unfold after_turn.
  destruct (first_call s u) as [[e | response] w1] eqn:H1.
  { rewrite (chat_first_call_fails _ _ _ _ H1). exists (Some (diagnostic e)), [].
    cbn. rewrite <- app_assoc. auto. }
  destruct (first_message response) as [e | m] eqn:H2.
  { rewrite (chat_first_no_choice _ _ _ _ _ H1 H2).
    exists (Some (diagnostic e)), []. cbn. rewrite <- app_assoc. auto. }
  assert (Hr : first_reply s u m w1) by (exists response; auto).
  destruct (requested_tool_calls m) as [ | tc tcs] eqn:H3.
  { rewrite (chat_plain _ _ _ _ Hr H3). exists (ChatMessage.content m), [].
    cbn. rewrite <- app_assoc. auto. }
  rewrite (chat_tool_round _ _ _ _ _ _ Hr H3).
  destruct (run_tool_calls (tc :: tcs) _) as [[e | []] s2] eqn:Hl.
  { destruct (run_tool_calls_raised _ _ _ _ Hl)
      as (done & tc' & rest & msgs & gets & _ & Hm & _).
    exists (Some (diagnostic e)), (requests_message m :: msgs).
    cbn [fst snd answered messages before_tools] in *. rewrite Hm, <- !app_assoc.
    auto. }
  destruct (run_tool_calls_completed _ _ _ Hl) as (msgs & gets & Hm & _).
  cbn [messages before_tools] in Hm.
  assert (Hshape : forall a w2,
    messages (answered (asked_again s2 w2) a) =
    messages s ++ user_msg u :: (requests_message m :: msgs) ++ [assistant_message a]).
  { intros a w2. cbn [answered asked_again messages]. rewrite Hm, <- !app_assoc.
    reflexivity. }
  destruct (final_call s2) as [[e | response2] w2].
  { exists (Some (diagnostic e)), (requests_message m :: msgs). split; [ reflexivity | ].
    apply Hshape. }
  destruct (first_message response2) as [e | m2].
  { exists (Some (diagnostic e)), (requests_message m :: msgs). split; [ reflexivity | ].
    apply Hshape. }
  exists (ChatMessage.content m2), (requests_message m :: msgs). split; [ reflexivity | ].
  apply Hshape.
Qed.

Lemma occurs_in_here (t after : string) : occurs_in t (t ++ after)%string.
Proof. exists ""%string, after. reflexivity. Qed.

Lemma occurs_in_later (t before s : string) :
  occurs_in t s -> occurs_in t (before ++ s)%string.
Proof.
  intros (b & a & ->). exists (before ++ b)%string, a.
  induction before as [ | c before IH]; cbn; [ reflexivity | now rewrite IH ].
Qed.

Lemma occurs_in_end (t : string) : occurs_in t t.
Proof.
  exists ""%string, ""%string. cbn.
  induction t as [ | c t IH]; cbn; [ reflexivity | now rewrite <- IH ].
Qed.

Lemma occurs_in_cons (t : string) (c : ascii) (s : string) :
  occurs_in t s -> occurs_in t (String c s).
Proof. apply (occurs_in_later t (String c "")). Qed.

Lemma prefix_split (t s : string) :
  String.prefix t s = true -> exists after, s = (t ++ after)%string.
Proof.
  revert s. induction t as [ | a t IH]; intros s.
  - exists s. reflexivity.
  - destruct s as [ | b s]; cbn; [ discriminate | ].
    destruct (ascii_dec a b) as [-> | ]; [ | discriminate ].
    intros Hp. destruct (IH _ Hp) as [after ->]. exists after. reflexivity.
Qed.

Lemma occurs_in_prefix (t s : string) :
  String.prefix t s = true -> occurs_in t s.
Proof.
  intros Hp. destruct (prefix_split _ _ Hp) as [after ->]. apply occurs_in_here.
Qed.

Ltac find_occurrence :=
  lazymatch goal with
  | |- occurs_in ?t ?t => exact (occurs_in_end t)
  | |- occurs_in ?t (?t ++ ?a)%string => exact (occurs_in_here t a)
  | |- occurs_in (String ?c ?t) (String ?c ?s) =>
      first [ apply occurs_in_prefix; reflexivity
            | apply occurs_in_cons; find_occurrence ]
  | |- occurs_in ?t (String _ _) => apply occurs_in_cons; find_occurrence
  | |- occurs_in ?t (_ ++ _)%string =>
      first [ apply occurs_in_cons; find_occurrence
            | apply occurs_in_later; find_occurrence ]
  end.

(** *** The weather lookup *)

(** C2. For every city the lookup returns a record, successful or failed:
    whatever the network call, the status check, the JSON reading or the
    field accesses raise is turned into a failure record.  The lookup makes
    its one network call and leaves the history alone. *)
Theorem get_weather_never_raises (city : PyVal) (s : Session W) :
  exists (result : Weather.Lookup) (s' : Session W),
    get_weather city s = (inr result, s') /\
    messages s' = messages s /\
    calls s' = calls s ++ [HttpGet weather_endpoint (weather_params city)].
Proof.
  destruct (get_weather_total city s) as [result Hw].
  exists result, (looked_up city s). auto.
Qed.

(** C3. When the provider answers the lookup of [name] with status 404, the
    lookup returns the failure record whose reason is
    [City '<name>' not found. Please check the spelling.] *)
Theorem get_weather_city_not_found (name : string) (s : Session W)
    (response : Response) (w1 : W) :
  requests_get weather_endpoint (weather_params (PyStr name)) (world s)
    = (inr response, w1) ->
  status_code response = 404%Z ->
  exists reason,
    get_weather (PyStr name) s = (inr (Weather.Failure reason), looked_up (PyStr name) s) /\
    reason = ("City '" ++ name ++ "' not found. Please check the spelling.")%string /\
    occurs_in name reason /\
    occurs_in "Please check the spelling" reason.
Proof.
  intros Hget Hstatus. eexists. split; [ | split; [ reflexivity | split ] ].
  - unfold get_weather, looked_up, try_except. unfold bind at 1. unfold http_get at 1.
    unfold weather_endpoint, weather_params in *. rewrite Hget. cbn [snd].
    rewrite bind_lift. unfold raise_for_status. rewrite Hstatus. cbn.
    rewrite Hstatus. reflexivity.
  - find_occurrence.
  - find_occurrence.
Qed.

(** *** The dispatcher *)

(** C4, as the code has it.  A dispatched [get_weather] call whose lookup
    succeeds with a text as description renders the text block made of
    the city, the country, the temperature, the feels-like temperature,
    the description capitalized by [str.capitalize], the humidity and the
    wind speed of the lookup's data, and of fixed labels; when the lookup
    fails, the rendered text is the failure reason itself. *)
Theorem execute_tool_call_renders_lookup (tc : ToolCall.t) (arguments city : PyVal)
    (result : Weather.Lookup) (s s' : Session W) :
  Fn.name (ToolCall.function tc) = "get_weather"%string ->
  json_loads (Fn.arguments (ToolCall.function tc)) = inr arguments ->
  py_getitem_str arguments "city" = inr city ->
  get_weather city s = (inr result, s') ->
  match result with
  | Weather.Success data =>
      forall description : string,
        Weather.description data = PyStr description ->
        exists text,
          execute_tool_call tc s = (inr text, s') /\
          text =
            ("Weather in " ++ py_str (Weather.city data) ++ ", "
               ++ py_str (Weather.country data) ++ ":
- Temperature: " ++ py_str (Weather.temperature data)
               ++ "°C (feels like " ++ py_str (Weather.feels_like data) ++ "°C)
- Conditions: " ++ str_capitalize description ++ "
- Humidity: " ++ py_str (Weather.humidity data) ++ "%
- Wind Speed: " ++ py_str (Weather.wind_speed data) ++ " m/s")%string /\
          Forall (fun field => occurs_in field text)
            [py_str (Weather.city data);
             py_str (Weather.country data);
             py_str (Weather.temperature data);
             py_str (Weather.feels_like data);
             str_capitalize description;
             py_str (Weather.humidity data);
             py_str (Weather.wind_speed data)]
  | Weather.Failure error => execute_tool_call tc s = (inr error, s')
  end.
Proof.
  intros Hn Hj Hc Hw.
  rewrite (execute_tool_call_lookup _ _ _ _ _ _ Hn Hj Hc Hw).
  destruct result as [data | error]; [ | reflexivity ].
  intros description Hd. rewrite Hd. cbn [py_capitalize].
  eexists. split; [ reflexivity | ]. split; [ reflexivity | ].
  unfold weather_text.
  repeat (apply Forall_cons; [ find_occurrence | ]). apply Forall_nil.
Qed.

(** What the dispatcher does when the provider's description is not a
    text: [capitalize] does not exist and the call raises. *)
Lemma execute_tool_call_description_not_text (tc : ToolCall.t)
    (arguments city : PyVal) (data : Weather.Info) (s s' : Session W) :
  Fn.name (ToolCall.function tc) = "get_weather"%string ->
  json_loads (Fn.arguments (ToolCall.function tc)) = inr arguments ->
  py_getitem_str arguments "city" = inr city ->
  get_weather city s = (inr (Weather.Success data), s') ->
  (forall d, Weather.description data <> PyStr d) ->
  exists msg, execute_tool_call tc s = (inl (AttributeError msg), s').
Proof.
  intros Hn Hj Hc Hw Hd.
  rewrite (execute_tool_call_lookup _ _ _ _ _ _ Hn Hj Hc Hw).
  destruct (Weather.description data) eqn:E; cbn; try (eexists; reflexivity).
  exfalso. apply (Hd s0). reflexivity.
Qed.

(** C7, as the code has it.  A call whose name is not [get_weather] and
    whose payload is JSON is answered by the text [Unknown tool]; nothing
    is looked up and the session is left as it was. *)
Theorem execute_tool_call_unknown_tool (tc : ToolCall.t) (arguments : PyVal)
    (s : Session W) :
  Fn.name (ToolCall.function tc) <> "get_weather"%string ->
  json_loads (Fn.arguments (ToolCall.function tc)) = inr arguments ->
  execute_tool_call tc s = (inr "Unknown tool"%string, s).
Proof.
  intros Hn Hj. exact (execute_tool_call_other_name _ _ _ Hj Hn).
Qed.

(** *** Clearing the history *)

(** C8. Clearing the history twice is clearing it once, and the history is
    empty after it. *)
Theorem clear_chat_history_idempotent (s : Session W) :
  clear_chat_history (clear_chat_history s) = clear_chat_history s /\
  messages (clear_chat_history s) = [].
Proof. split; reflexivity. Qed.

(** *** Turns with a tool round *)

Lemma completion_requests_app (a b : list Event) :
  completion_requests (a ++ b) = completion_requests a ++ completion_requests b.
Proof.
  induction a as [ | [r | url params] a IH]; cbn; [ reflexivity | | exact IH ].
  now rewrite IH.
Qed.

Lemma completion_requests_of_gets (gets : list Event) :
  forallb is_http_get gets = true -> completion_requests gets = [].
Proof.
  induction gets as [ | [r | url params] gets IH]; cbn; auto. discriminate.
Qed.

(** A turn whose tool round completes: what the loop leaves, and what the
    turn then does. *)
Lemma tool_round_completed (s : Session W) (u : string) m w1 tc tcs s2 :
  first_reply s u m w1 ->
  requested_tool_calls m = tc :: tcs ->
  run_tool_calls (tc :: tcs) (before_tools s u m w1) = (inr tt, s2) ->
  exists msgs gets answer,
    results_of (tc :: tcs) msgs /\
    messages s2 = messages s ++ [user_msg u; requests_message m] ++ msgs /\
    calls s2 =
      calls s ++
      CompletionCall (first_request (system_message :: messages s ++ [user_msg u]))
        :: gets /\
    forallb is_http_get gets = true /\
    chat_with_groq u s =
      (inr answer, answered (asked_again s2 (snd (final_call s2))) answer).
Proof.
  intros Hr H3 Hl.
  destruct (run_tool_calls_completed _ _ _ Hl) as (msgs & gets & Hm & Hres & Hc & Hg).
  cbn [before_tools messages calls] in Hm, Hc.
  rewrite (chat_tool_round _ _ _ _ _ _ Hr H3), Hl.
  assert (Hm' : messages s2 = messages s ++ [user_msg u; requests_message m] ++ msgs)
    by (rewrite Hm, <- app_assoc; reflexivity).
  assert (Hc' : calls s2 =
      calls s ++
      CompletionCall (first_request (system_message :: messages s ++ [user_msg u]))
        :: gets)
    by (rewrite Hc, <- app_assoc; reflexivity).
  destruct (final_call s2) as [[e | response2] w2]; cbn [snd].
  - exists msgs, gets, (Some (diagnostic e)). auto.
  - destruct (first_message response2) as [e | m2].
    + exists msgs, gets, (Some (diagnostic e)). auto.
    + exists msgs, gets, (ChatMessage.content m2). auto.
Qed.


(** C9. The first event of every turn is a completion request that
    declares the tools, with automatic tool choice, over the system
    message and the history with the user message; any later completion
    request of the turn declares no tools; and a turn whose tool round
    completes makes exactly one such request, over the system message and
    the history extended by the requests and the tool results. *)
Theorem completion_requests_of_turn (s : Session W) (u : string) :
  exists later,
    calls (after_turn s u) =
      calls s ++
      CompletionCall
        {| Req.model := "llama-3.3-70b-versatile";
           Req.messages := system_message :: messages s ++ [user_msg u];
           Req.tools := Some TOOLS;
           Req.tool_choice := Some "auto"%string;
           Req.max_tokens := 1024;
           Req.temperature := PyFloat "0.7" |} :: later /\
    (forall r, In r (completion_requests later) ->
       Req.tools r = None /\ Req.tool_choice r = None) /\
    (forall m w1 tc tcs s2,
       first_reply s u m w1 ->
       requested_tool_calls m = tc :: tcs ->
       run_tool_calls (tc :: tcs) (before_tools s u m w1) = (inr tt, s2) ->
       completion_requests later =
         [{| Req.model := "llama-3.3-70b-versatile";
             Req.messages := system_message :: messages s2;
             Req.tools := None;
             Req.tool_choice := None;
             Req.max_tokens := 1024;
             Req.temperature := PyFloat "0.7" |}] /\
       exists results,
         results_of (tc :: tcs) results /\
         messages s2 = messages s ++ [user_msg u; requests_message m] ++ results).
Proof.
  unfold after_turn.
  destruct (first_call s u) as [[e | response] w1] eqn:H1.
  { rewrite (chat_first_call_fails _ _ _ _ H1). exists []. cbn.
    split; [ reflexivity | ]. split; [ tauto | ].
    intros m w1' tc tcs s2 (response & H1' & _). unfold first_call in *. congruence. }
  destruct (first_message response) as [e | m] eqn:H2.
  { rewrite (chat_first_no_choice _ _ _ _ _ H1 H2). exists []. cbn.
    split; [ reflexivity | ]. split; [ tauto | ].
    intros m w1' tc tcs s2 (response' & H1' & H2'). unfold first_call in *. congruence. }
  assert (Hr : first_reply s u m w1) by (exists response; auto).
  assert (Hsame : forall m' w1', first_reply s u m' w1' -> m' = m /\ w1' = w1).
  { intros m' w1' (response' & H1' & H2'). unfold first_call in *.
    rewrite H1 in H1'. injection H1' as <- <-. rewrite H2 in H2'.
    injection H2' as <-. auto. }
  destruct (requested_tool_calls m) as [ | tc tcs] eqn:H3.
  { rewrite (chat_plain _ _ _ _ Hr H3). exists []. cbn.
    split; [ reflexivity | ]. split; [ tauto | ].
    intros m' w1' tc tcs s2 Hr' H3'. destruct (Hsame _ _ Hr') as [-> ->]. congruence. }
  destruct (run_tool_calls (tc :: tcs) (before_tools s u m w1)) as [[e | []] s2] eqn:Hl.
  { rewrite (chat_tool_round _ _ _ _ _ _ Hr H3), Hl.
    destruct (run_tool_calls_raised _ _ _ _ Hl)
      as (done & tc' & rest & msgs & gets & _ & _ & _ & Hc & Hg).
    cbn [before_tools calls] in Hc.
    exists gets. cbn [snd answered calls]. rewrite Hc, <- app_assoc.
    split; [ reflexivity | ]. rewrite (completion_requests_of_gets _ Hg).
    split; [ intros r [] | ].
    intros m' w1' tc0 tcs0 s0 Hr' H3'. destruct (Hsame _ _ Hr') as [-> ->].
    rewrite H3 in H3'. injection H3' as E1 E2. subst tc0 tcs0. congruence. }
  destruct (tool_round_completed _ _ _ _ _ _ _ Hr H3 Hl)
    as (msgs & gets & answer & Hres & Hm & Hc & Hg & Hchat).
  rewrite Hchat. cbn [snd answered asked_again calls].
  exists (gets ++ [CompletionCall (final_request (system_message :: messages s2))]).
  rewrite Hc, <- app_assoc. split; [ reflexivity | ].
  rewrite completion_requests_app, (completion_requests_of_gets _ Hg). cbn.
  split.
  - intros r [<- | []]. auto.
  - intros m' w1' tc0 tcs0 s0 Hr' H3' Hl'. destruct (Hsame _ _ Hr') as [-> ->].
    rewrite H3 in H3'. injection H3' as E1 E2. subst tc0 tcs0.
    change (run_tool_calls (tc :: tcs) (before_tools s u m w1) = (inr tt, s0)) in Hl'.
    rewrite Hl in Hl'. injection Hl' as E3. subst s0.
    split; [ reflexivity | ]. exists msgs. auto.
Qed.

(** *** Turns without a tool round *)

Lemma plain_turn (s : Session W) (u : string) :
  asks_for_tools s u = false ->
  exists answer,
    messages (after_turn s u) = messages s ++ [user_msg u; assistant_message answer].
Proof.
  unfold asks_for_tools, after_turn.
  destruct (first_call s u) as [[e | response] w1] eqn:H1.
  { intros _. rewrite (chat_first_call_fails _ _ _ _ H1).
    exists (Some (diagnostic e)). cbn. now rewrite <- app_assoc. }
  destruct (first_message response) as [e | m] eqn:H2.
  { intros _. rewrite (chat_first_no_choice _ _ _ _ _ H1 H2).
    exists (Some (diagnostic e)). cbn. now rewrite <- app_assoc. }
  destruct (requested_tool_calls m) as [ | tc tcs] eqn:H3; [ | discriminate ].
  intros _. assert (Hr : first_reply s u m w1) by (exists response; auto).
  rewrite (chat_plain _ _ _ _ Hr H3). exists (ChatMessage.content m). cbn.
  now rewrite <- app_assoc.
Qed.

(** C5. A conversation of N turns none of which asks for tools extends
    the history by one user message and one assistant message per turn: by
    2 N messages, so that a history that was empty has length 2 N. *)
Theorem history_length_after_plain_turns (s : Session W) (inputs : list string) :
  tool_free s inputs = true ->
  length (messages (after_turns s inputs))
    = length (messages s) + 2 * length inputs /\
  map Msg.role (messages (after_turns s inputs))
    = map Msg.role (messages s) ++ flat_map (fun _ => [user; assistant]) inputs /\
  (messages s = [] ->
   length (messages (after_turns s inputs)) = 2 * length inputs).
Proof.
  revert s. induction inputs as [ | u inputs IH]; intros s Hfree.
  - cbn. rewrite app_nil_r. repeat split; auto. intros ->. reflexivity.
  - cbn [tool_free] in Hfree. apply andb_true_iff in Hfree as [Hu Hrest].
    apply negb_true_iff in Hu. destruct (plain_turn _ _ Hu) as [answer Hm].
    destruct (IH _ Hrest) as (Hlen & Hroles & _).
    assert (Hlen' : length (messages (after_turns s (u :: inputs)))
                    = length (messages s) + 2 * length (u :: inputs)).
    { cbn [after_turns fold_left] in *. unfold after_turns in Hlen. rewrite Hlen, Hm.
      rewrite length_app. cbn [length]. lia. }
    split; [ exact Hlen' | ]. split.
    + cbn [after_turns fold_left flat_map] in *. unfold after_turns in Hroles.
      rewrite Hroles, Hm, map_app, <- app_assoc. reflexivity.
    + intros Hempty. rewrite Hlen', Hempty. reflexivity.
Qed.

(** *** Failures *)

(** C6. When a completion call of the turn fails with [e], the first one
    or the final one, the turn returns the text
    [Error communicating with Groq API: <str(e)>] and appends to the
    history an assistant message whose content is that text; the history
    as it was at the failure stays (what the session held, the user
    message, and after a tool round the requests and the tool results),
    and the next turn runs on it as any turn does. *)
Theorem completion_failure_is_reported (s : Session W) (u : string)
    (e : PyException) (at_failure : Session W) :
  completion_fails s u e at_failure ->
  let report := ("Error communicating with Groq API: " ++ str_exn e)%string in
  chat_with_groq u s =
    (inr (Some report),
     {| messages :=
          messages at_failure
            ++ [{| Msg.role := assistant;
                   Msg.content := Some report;
                   Msg.tool_calls := None;
                   Msg.tool_call_id := None |}];
        world := world at_failure;
        calls := calls at_failure |}) /\
  (exists between,
     messages at_failure =
       messages s
         ++ {| Msg.role := user;
               Msg.content := Some u;
               Msg.tool_calls := None;
               Msg.tool_call_id := None |} :: between /\
     (between = [] \/
      exists m results,
        between =
          {| Msg.role := assistant;
             Msg.content := Some (or_empty (ChatMessage.content m));
             Msg.tool_calls := Some (map tool_call_dict (requested_tool_calls m));
             Msg.tool_call_id := None |} :: results /\
        results_of (requested_tool_calls m) results)) /\
  (forall u',
     exists answer between,
       fst (chat_with_groq u' (after_turn s u)) = inr answer /\
       messages (after_turn (after_turn s u) u') =
         messages (after_turn s u)
           ++ {| Msg.role := user;
                 Msg.content := Some u';
                 Msg.tool_calls := None;
                 Msg.tool_call_id := None |} :: between
           ++ [{| Msg.role := assistant;
                  Msg.content := answer;
                  Msg.tool_calls := None;
                  Msg.tool_call_id := None |}]).
Proof.
  intros Hfail report. split; [ | split ].
  - destruct Hfail as [w1 H1 | m w1 tc tcs s2 w2 Hr H3 Hl H4].
    + exact (chat_first_call_fails _ _ _ _ H1).
    + rewrite (chat_tool_round _ _ _ _ _ _ Hr H3), Hl, H4. reflexivity.
  - destruct Hfail as [w1 H1 | m w1 tc tcs s2 w2 Hr H3 Hl H4].
    + exists []. cbn. auto.
    + destruct (run_tool_calls_completed _ _ _ Hl) as (msgs & gets & Hm & Hres & _).
      cbn [before_tools messages] in Hm.
      exists (requests_message m :: msgs). cbn [asked_again messages].
      split; [ rewrite Hm, <- app_assoc; reflexivity | ].
      right. exists m, msgs. rewrite H3. split; [ | exact Hres ].
      unfold requests_message. rewrite H3. reflexivity.
  - intros u'. apply chat_with_groq_returns.
Qed.

(** C10. A tool call whose payload is not JSON, whatever its name, or that
    is for [get_weather] with a payload without ["city"], makes the
    dispatcher raise instead of returning a text; in a turn, the loop stops
    at that call and the turn answers with the exception rendered as
    [Error communicating with Groq API: <str(e)>], appended to the
    history after the results of the calls before it. *)
Theorem bad_payload_raises (tc : ToolCall.t) (e : PyException) :
  bad_payload tc e ->
  (forall s : Session W, execute_tool_call tc s = (inl e, s)) /\
  (forall (s : Session W) (u : string) m w1 done rest s1,
     first_reply s u m w1 ->
     requested_tool_calls m = done ++ tc :: rest ->
     run_tool_calls done (before_tools s u m w1) = (inr tt, s1) ->
     let report := ("Error communicating with Groq API: " ++ str_exn e)%string in
     chat_with_groq u s =
       (inr (Some report),
        {| messages := messages s1 ++ [assistant_message (Some report)];
           world := world s1;
           calls := calls s1 |})).
Proof.
  intros Hbad.
  assert (Hraise : forall s : Session W, execute_tool_call tc s = (inl e, s)).
  { intros s. destruct Hbad as [Hj | arguments Hn Hj Hc].
    - exact (execute_tool_call_not_json _ _ _ Hj).
    - exact (execute_tool_call_no_city _ _ _ _ Hn Hj Hc). }
  split; [ exact Hraise | ].
  intros s u m w1 done rest s1 Hr H3 Hl report.
  assert (Hloop : run_tool_calls (done ++ tc :: rest) (before_tools s u m w1)
                  = (inl e, s1)).
  { rewrite run_tool_calls_app, Hl. cbn [run_tool_calls]. unfold bind at 1.
    rewrite Hraise. reflexivity. }
  destruct (done ++ tc :: rest) as [ | tc0 tcs0] eqn:Happ.
  { destruct done; discriminate. }
  rewrite (chat_tool_round _ _ _ _ _ _ Hr H3), Hloop. reflexivity.
Qed.

(* --------------------------------------------------------------------- *)
(** *** More on the weather lookup *)
(* --------------------------------------------------------------------- *)

Lemma raise_for_status_passes (response : Response) :
  (status_code response < 400 \/ 600 <= status_code response)%Z ->
  raise_for_status response = inr tt.
Proof.
  intros Hs. unfold raise_for_status.
  destruct (Z.leb_spec 400 (status_code response)),
           (Z.ltb_spec (status_code response) 500),
           (Z.leb_spec 500 (status_code response)),
           (Z.ltb_spec (status_code response) 600); cbn; try reflexivity; lia.
Qed.

Lemma raise_for_status_raises (response : Response) (e : PyException) :
  raise_for_status response = inl e ->
  (400 <= status_code response < 600)%Z /\
  e = HTTPError
        (str_of_Z (status_code response)
           ++ (if (status_code response <? 500)%Z
               then " Client Error: " else " Server Error: ")
           ++ reason response ++ " for url: " ++ url response)%string
        response.
Proof.
  unfold raise_for_status.
  destruct (Z.leb_spec 400 (status_code response)),
           (Z.ltb_spec (status_code response) 500),
           (Z.leb_spec 500 (status_code response)),
           (Z.ltb_spec (status_code response) 600); cbn;
    intros He; try discriminate He; injection He as <-; split;
    try lia; reflexivity.
Qed.

(** The lookup once the provider has answered with [response]. *)
Lemma get_weather_answered (city : PyVal) (s : Session W) (response : Response)
    (w1 : W) :
  requests_get weather_endpoint (weather_params city) (world s) = (inr response, w1) ->
  looked_up city s =
    {| messages := messages s; world := w1;
       calls := calls s ++ [HttpGet weather_endpoint (weather_params city)] |}.
Proof. intros Hget. unfold looked_up. rewrite Hget. reflexivity. Qed.

Ltac enter_lookup Hget :=
  unfold get_weather, try_except; unfold bind at 1; unfold http_get at 1;
  unfold weather_endpoint, weather_params in *; rewrite Hget.

Ltac step_lookup H := rewrite bind_lift, ?H; cbn beta iota.

(** X1. The lookup returns a success record exactly when the provider's
    answer has a status outside 400..599, its body is JSON, and the body
    has [name], [sys.country], [main.temp], [main.feels_like],
    [main.humidity], [weather[0].description] and [wind.speed]: these seven
    values are then the record's fields. *)
Theorem get_weather_success_iff (city : PyVal) (s : Session W) (data : Weather.Info) :
  fst (get_weather city s) = inr (Weather.Success data) <->
  exists response body d_sys d_main l_weather d_weather d_wind,
    fst (requests_get weather_endpoint (weather_params city) (world s)) = inr response /\
    (status_code response < 400 \/ 600 <= status_code response)%Z /\
    json_loads (text response) = inr body /\
    py_getitem_str body "name" = inr (Weather.city data) /\
    py_getitem_str body "sys" = inr d_sys /\
    py_getitem_str d_sys "country" = inr (Weather.country data) /\
    py_getitem_str body "main" = inr d_main /\
    py_getitem_str d_main "temp" = inr (Weather.temperature data) /\
    py_getitem_str d_main "feels_like" = inr (Weather.feels_like data) /\
    py_getitem_str d_main "humidity" = inr (Weather.humidity data) /\
    py_getitem_str body "weather" = inr l_weather /\
    py_getitem_int l_weather 0 = inr d_weather /\
    py_getitem_str d_weather "description" = inr (Weather.description data) /\
    py_getitem_str body "wind" = inr d_wind /\
    py_getitem_str d_wind "speed" = inr (Weather.wind_speed data).
Proof.
  split.
  - destruct (requests_get weather_endpoint (weather_params city) (world s))
      as [[e | response] w1] eqn:Hget.
    { enter_lookup Hget. intros Hrun.
      destruct (get_weather_handler_total city e
                  {| messages := messages s; world := w1;
                     calls := calls s ++
                       [HttpGet "http://api.openweathermap.org/data/2.5/weather"
                          (PyDict [("q", city); ("appid", OPENWEATHER_API_KEY);
                                   ("units", PyStr "metric")])] |})
        as [reason Hr].
      rewrite Hr in Hrun. discriminate Hrun. }
    enter_lookup Hget. intros Hrun.
    repeat
      (rewrite bind_lift in Hrun; cbn beta iota in Hrun;
       try match type of Hrun with
           | fst (let (_, _) := match ?x with _ => _ end in _) = _ =>
               let e := fresh "e" in
               let E := fresh "E" in
               destruct x as [e | ?] eqn:E;
               [ match type of Hrun with
                 | fst (?h ?st) = _ =>
                     let reason := fresh "reason" in
                     let Hr := fresh "Hr" in
                     destruct (get_weather_handler_total city e st) as [reason Hr];
                     rewrite Hr in Hrun; discriminate Hrun
                 end
               | ]
           end).
    cbn in Hrun. injection Hrun as <-. cbn [Weather.city Weather.country
      Weather.temperature Weather.feels_like Weather.humidity Weather.description
      Weather.wind_speed].
    exists response. do 6 eexists. cbn [fst].
    split; [ reflexivity | ]. split.
    { destruct (Z.lt_ge_cases (status_code response) 400) as [ | Hlo]; [ auto | ].
      destruct (Z.lt_ge_cases (status_code response) 600) as [Hhi | ]; [ | auto ].
      exfalso. unfold raise_for_status in E.
      destruct (Z.leb_spec 400 (status_code response)),
               (Z.ltb_spec (status_code response) 500),
               (Z.leb_spec 500 (status_code response)),
               (Z.ltb_spec (status_code response) 600); cbn in E;
        try discriminate E; lia. }
    unfold response_json in *. repeat (split; [ eassumption | ]). eassumption.
  - intros (response & body & d_sys & d_main & l_weather & d_weather & d_wind
            & Hget & Hstatus & Hbody & H1 & H2 & H3 & H4 & H5 & H6 & H7 & H8 & H9
            & H10 & H11 & H12).
    destruct (requests_get weather_endpoint (weather_params city) (world s))
      as [r w1] eqn:Hget'.
    cbn [fst] in Hget. subst r. enter_lookup Hget'.
    step_lookup (raise_for_status_passes _ Hstatus).
    unfold response_json. step_lookup Hbody.
    step_lookup H1. step_lookup H2. step_lookup H3. step_lookup H4. step_lookup H5.
    step_lookup H4. step_lookup H6. step_lookup H4. step_lookup H7. step_lookup H8.
    step_lookup H9. step_lookup H10. step_lookup H11. step_lookup H12.
    destruct data; reflexivity.
Qed.

(** X2. An answer with a status in 400..599 other than 404 makes the
    lookup fail with [HTTP error occurred: <status> Client Error|Server
    Error: <reason> for url: <url>]; the body is not read. *)
Theorem get_weather_http_error (city : PyVal) (s : Session W)
    (response : Response) (w1 : W) :
  requests_get weather_endpoint (weather_params city) (world s) = (inr response, w1) ->
  (400 <= status_code response < 600)%Z ->
  status_code response <> 404%Z ->
  get_weather city s =
    (inr (Weather.Failure
            ("HTTP error occurred: " ++ str_of_Z (status_code response)
               ++ (if (status_code response <? 500)%Z
                   then " Client Error: " else " Server Error: ")
               ++ reason response ++ " for url: " ++ url response)%string),
     looked_up city s).
Proof.
  intros Hget Hrange Hnot. rewrite (get_weather_answered _ _ _ _ Hget).
  enter_lookup Hget. rewrite bind_lift.
  destruct (raise_for_status response) as [e | []] eqn:E.
  - destruct (raise_for_status_raises _ _ E) as [_ ->].
    apply Z.eqb_neq in Hnot. rewrite Hnot. reflexivity.
  - exfalso. unfold raise_for_status in E.
    destruct (Z.leb_spec 400 (status_code response)),
             (Z.ltb_spec (status_code response) 500),
             (Z.leb_spec 500 (status_code response)),
             (Z.ltb_spec (status_code response) 600); cbn in E;
      try discriminate E; lia.
Qed.

(** X3. When the network call itself raises (no answer at all), the lookup
    fails with [Error fetching weather data: <str(e)>]. *)
Theorem get_weather_transport_failure (city : PyVal) (s : Session W)
    (e : PyException) (w1 : W) :
  requests_get weather_endpoint (weather_params city) (world s) = (inl e, w1) ->
  (forall msg response, e <> HTTPError msg response) ->
  get_weather city s =
    (inr (Weather.Failure ("Error fetching weather data: " ++ str_exn e)%string),
     looked_up city s).
Proof.
  intros Hget Hkind. unfold looked_up. rewrite Hget. enter_lookup Hget. cbn [snd].
  destruct e; try reflexivity. exfalso. exact (Hkind _ _ eq_refl).
Qed.

(** X4. An answer whose body is not JSON makes the lookup fail with
    [Error fetching weather data: <str(e)>], [e] being what the JSON
    reader raised. *)
Theorem get_weather_unreadable_body (city : PyVal) (s : Session W)
    (response : Response) (w1 : W) (e : PyException) :
  requests_get weather_endpoint (weather_params city) (world s) = (inr response, w1) ->
  (status_code response < 400 \/ 600 <= status_code response)%Z ->
  json_loads (text response) = inl e ->
  (forall msg r, e <> HTTPError msg r) ->
  get_weather city s =
    (inr (Weather.Failure ("Error fetching weather data: " ++ str_exn e)%string),
     looked_up city s).
Proof.
  intros Hget Hstatus Hbody Hkind. rewrite (get_weather_answered _ _ _ _ Hget).
  enter_lookup Hget. step_lookup (raise_for_status_passes _ Hstatus).
  unfold response_json. step_lookup Hbody.
  destruct e; try reflexivity. exfalso. exact (Hkind _ _ eq_refl).
Qed.

(** X5. An answer whose body is a JSON object without [name] (the shape of
    the provider's error bodies) makes the lookup fail with
    [Error fetching weather data: 'name'], whatever else the body holds. *)
Theorem get_weather_missing_name (city : PyVal) (s : Session W)
    (response : Response) (w1 : W) (d : list (string * PyVal)) :
  requests_get weather_endpoint (weather_params city) (world s) = (inr response, w1) ->
  (status_code response < 400 \/ 600 <= status_code response)%Z ->
  json_loads (text response) = inr (PyDict d) ->
  dict_get d "name" = None ->
  get_weather city s =
    (inr (Weather.Failure "Error fetching weather data: 'name'"), looked_up city s).
Proof.
  intros Hget Hstatus Hbody Hname. rewrite (get_weather_answered _ _ _ _ Hget).
  enter_lookup Hget. step_lookup (raise_for_status_passes _ Hstatus).
  unfold response_json. step_lookup Hbody.
  rewrite bind_lift. cbn [py_getitem_str]. rewrite Hname. reflexivity.
Qed.

(** X6. An answer whose [weather] list is empty, the fields read before
    it being there, makes the lookup fail with
    [Error fetching weather data: list index out of range]. *)
Theorem get_weather_empty_weather_list (city : PyVal) (s : Session W)
    (response : Response) (w1 : W)
    (body v_city d_sys v_country d_main v_temp v_feels v_humidity : PyVal) :
  requests_get weather_endpoint (weather_params city) (world s) = (inr response, w1) ->
  (status_code response < 400 \/ 600 <= status_code response)%Z ->
  json_loads (text response) = inr body ->
  py_getitem_str body "name" = inr v_city ->
  py_getitem_str body "sys" = inr d_sys ->
  py_getitem_str d_sys "country" = inr v_country ->
  py_getitem_str body "main" = inr d_main ->
  py_getitem_str d_main "temp" = inr v_temp ->
  py_getitem_str d_main "feels_like" = inr v_feels ->
  py_getitem_str d_main "humidity" = inr v_humidity ->
  py_getitem_str body "weather" = inr (PyList []) ->
  get_weather city s =
    (inr (Weather.Failure "Error fetching weather data: list index out of range"),
     looked_up city s).
Proof.
  intros Hget Hstatus Hbody H1 H2 H3 H4 H5 H6 H7 H8.
  rewrite (get_weather_answered _ _ _ _ Hget).
  enter_lookup Hget. step_lookup (raise_for_status_passes _ Hstatus).
  unfold response_json. step_lookup Hbody.
  step_lookup H1. step_lookup H2. step_lookup H3. step_lookup H4. step_lookup H5.
  step_lookup H4. step_lookup H6. step_lookup H4. step_lookup H7. step_lookup H8.
  reflexivity.
Qed.

(* --------------------------------------------------------------------- *)
(** *** More on the dispatcher and on turns *)
(* --------------------------------------------------------------------- *)

Lemma execute_tool_call_calls (tc : ToolCall.t) (s : Session W) :
  messages (snd (execute_tool_call tc s)) = messages s /\
  calls (snd (execute_tool_call tc s)) = calls s ++ lookup_of tc /\
  (forall r, fst (execute_tool_call tc s) = inr r ->
     length (lookup_of tc) = if is_weather_call tc then 1 else 0).
Proof.
  unfold lookup_of, is_weather_call.
  destruct (json_loads (Fn.arguments (ToolCall.function tc))) as [e | arguments] eqn:Hj.
  { rewrite (execute_tool_call_not_json _ _ _ Hj). cbn. rewrite app_nil_r.
    repeat split. discriminate. }
  destruct (string_dec (Fn.name (ToolCall.function tc)) "get_weather") as [Hn | Hn].
  2:{ rewrite (execute_tool_call_other_name _ _ _ Hj Hn).
      apply String.eqb_neq in Hn. rewrite Hn. cbn. rewrite app_nil_r. auto. }
  rewrite Hn, String.eqb_refl.
  destruct (py_getitem_str arguments "city") as [e | city] eqn:Hc.
  { rewrite (execute_tool_call_no_city _ _ _ _ Hn Hj Hc). cbn. rewrite app_nil_r.
    repeat split. discriminate. }
  destruct (get_weather_total city s) as [result Hw].
  rewrite (execute_tool_call_lookup _ _ _ _ _ _ Hn Hj Hc Hw).
  destruct result as [data | error]; [ destruct (py_capitalize _) | ]; cbn; auto.
Qed.

(** X7. Dispatching a tool call never touches the history; it calls the
    provider once, for the payload's city and in metric units, when the
    call is for [get_weather] with a JSON payload that has a ["city"], and
    makes no outbound call otherwise. *)
Theorem dispatcher_frame (tc : ToolCall.t) (s : Session W) :
  messages (snd (execute_tool_call tc s)) = messages s /\
  calls (snd (execute_tool_call tc s)) =
    calls s ++
    match json_loads (Fn.arguments (ToolCall.function tc)) with
    | inr arguments =>
        if String.eqb (Fn.name (ToolCall.function tc)) "get_weather" then
          match py_getitem_str arguments "city" with
          | inr city =>
              [HttpGet "http://api.openweathermap.org/data/2.5/weather"
                 (PyDict [("q", city); ("appid", OPENWEATHER_API_KEY);
                          ("units", PyStr "metric")])]
          | inl _ => []
          end
        else []
    | inl _ => []
    end.
Proof.
  destruct (execute_tool_call_calls tc s) as (Hm & Hc & _). split; assumption.
Qed.

Lemma run_tool_calls_lookups (tcs : list ToolCall.t) (s s2 : Session W) :
  run_tool_calls tcs s = (inr tt, s2) ->
  calls s2 = calls s ++ flat_map lookup_of tcs /\
  length (flat_map lookup_of tcs) = length (filter is_weather_call tcs).
Proof.
  revert s. induction tcs as [ | tc tcs IH]; intros s; cbn [run_tool_calls].
  - intros Hr. injection Hr as <-. cbn. rewrite app_nil_r. auto.
  - unfold bind at 1.
    destruct (execute_tool_call_calls tc s) as (_ & Hc1 & Hlen1).
    destruct (execute_tool_call tc s) as [[e | r] s1]; [ discriminate | ].
    cbn [fst snd] in *. rewrite bind_append. intros Hr.
    destruct (IH _ Hr) as (Hc & Hlen). cbn [calls] in Hc.
    cbn [flat_map filter]. rewrite Hc, Hc1, <- app_assoc, length_app, Hlen.
    split; [ reflexivity | ]. rewrite (Hlen1 r eq_refl).
    destruct (is_weather_call tc); reflexivity.
Qed.

(** X8. In a tool round that completes, the provider is called exactly
    once per requested [get_weather] call, and for nothing else. *)
Theorem tool_round_lookups (tcs : list ToolCall.t) (s s2 : Session W) :
  run_tool_calls tcs s = (inr tt, s2) ->
  exists gets,
    calls s2 = calls s ++ gets /\
    forallb is_http_get gets = true /\
    length gets = length (filter is_weather_call tcs).
Proof.
  intros Hr. destruct (run_tool_calls_lookups _ _ _ Hr) as (Hc & Hlen).
  exists (flat_map lookup_of tcs). repeat split; try assumption.
  clear. induction tcs as [ | tc tcs IH]; [ reflexivity | ].
  cbn [flat_map]. rewrite forallb_app, IH, andb_true_r. unfold lookup_of.
  destruct (json_loads _); [ reflexivity | ].
  destruct (is_weather_call tc); [ | reflexivity ].
  destruct (py_getitem_str _ _); reflexivity.
Qed.

Lemma results_are_replies (tcs : list ToolCall.t) (msgs : list Msg.t) :
  results_of tcs msgs -> forallb is_reply msgs = true.
Proof.
  induction 1 as [ | tc msg tcs msgs (Hrole & _) _ IH]; [ reflexivity | ].
  cbn. unfold is_reply at 1. rewrite Hrole. exact IH.
Qed.

(** What a turn appends, and that it returns. *)
Lemma turn_appends (s : Session W) (u : string) :
  exists answer between,
    fst (chat_with_groq u s) = inr answer /\
    messages (after_turn s u) =
      messages s ++ user_msg u :: between ++ [assistant_message answer] /\
    forallb is_reply between = true.
Proof.
  unfold after_turn.
  destruct (first_call s u) as [[e | response] w1] eqn:H1.
  { rewrite (chat_first_call_fails _ _ _ _ H1). exists (Some (diagnostic e)), [].
    cbn. rewrite <- app_assoc. auto. }
  destruct (first_message response) as [e | m] eqn:H2.
  { rewrite (chat_first_no_choice _ _ _ _ _ H1 H2).
    exists (Some (diagnostic e)), []. cbn. rewrite <- app_assoc. auto. }
  assert (Hr : first_reply s u m w1) by (exists response; auto).
  destruct (requested_tool_calls m) as [ | tc tcs] eqn:H3.
  { rewrite (chat_plain _ _ _ _ Hr H3). exists (ChatMessage.content m), [].
    cbn. rewrite <- app_assoc. auto. }
  rewrite (chat_tool_round _ _ _ _ _ _ Hr H3).
  destruct (run_tool_calls (tc :: tcs) _) as [[e | []] s2] eqn:Hl.
  { destruct (run_tool_calls_raised _ _ _ _ Hl)
      as (done & tc' & rest & msgs & gets & _ & Hm & Hres & _).
    exists (Some (diagnostic e)), (requests_message m :: msgs).
    cbn [fst snd answered messages before_tools] in *. rewrite Hm, <- !app_assoc.
    repeat split. cbn. exact (results_are_replies _ _ Hres). }
  destruct (run_tool_calls_completed _ _ _ Hl) as (msgs & gets & Hm & Hres & _).
  cbn [messages before_tools] in Hm.
  assert (Hshape : forall a w2,
    messages (answered (asked_again s2 w2) a) =
    messages s ++ user_msg u :: (requests_message m :: msgs) ++ [assistant_message a]).
  { intros a w2. cbn [answered asked_again messages]. rewrite Hm, <- !app_assoc.
    reflexivity. }
  assert (Hrep : forallb is_reply (requests_message m :: msgs) = true)
    by (cbn; exact (results_are_replies _ _ Hres)).
  destruct (final_call s2) as [[e | response2] w2].
  { exists (Some (diagnostic e)), (requests_message m :: msgs).
    split; [ reflexivity | ]. split; [ apply Hshape | exact Hrep ]. }
  destruct (first_message response2) as [e | m2].
  { exists (Some (diagnostic e)), (requests_message m :: msgs).
    split; [ reflexivity | ]. split; [ apply Hshape | exact Hrep ]. }
  exists (ChatMessage.content m2), (requests_message m :: msgs).
  split; [ reflexivity | ]. split; [ apply Hshape | exact Hrep ].
Qed.

(** X9. Every turn returns an answer, whatever the services do.  It leaves
    the history it found in place and appends to it the user message, then
    assistant messages and tool results only, the last one being an
    assistant message whose content is the answer returned. *)
Theorem turn_shape (s : Session W) (u : string) :
  exists answer between,
    fst (chat_with_groq u s) = inr answer /\
    messages (after_turn s u) =
      messages s
        ++ {| Msg.role := user; Msg.content := Some u;
              Msg.tool_calls := None; Msg.tool_call_id := None |}
        :: between
        ++ [{| Msg.role := assistant; Msg.content := answer;
               Msg.tool_calls := None; Msg.tool_call_id := None |}] /\
    Forall (fun m => Msg.role m = assistant \/ Msg.role m = tool) between.
Proof.
  destruct (turn_appends s u) as (answer & between & Hret & Hm & Hrep).
  exists answer, between. repeat split; try assumption.
  apply Forall_forall. intros m Hin.
  rewrite forallb_forall in Hrep. specialize (Hrep m Hin). unfold is_reply in Hrep.
  destruct (Msg.role m); auto; discriminate.
Qed.

(** X10. Over any number of turns the history only grows: what it held
    stays in place, at least two messages are appended per turn, and no
    system message is ever stored in it. *)
Theorem history_only_grows (s : Session W) (inputs : list string) :
  exists added,
    messages (after_turns s inputs) = messages s ++ added /\
    2 * length inputs <= length added /\
    Forall (fun m => Msg.role m <> system) added.
Proof.
  revert s. induction inputs as [ | u inputs IH]; intros s.
  - exists []. cbn. rewrite app_nil_r. repeat split; auto.
  - destruct (turn_appends s u) as (answer & between & _ & Hm & Hrep).
    destruct (IH (after_turn s u)) as (added & Ha & Hlen & Hsys).
    exists ((user_msg u :: between ++ [assistant_message answer]) ++ added).
    cbn [after_turns fold_left] in *. unfold after_turns in Ha.
    rewrite Ha, Hm, <- app_assoc. split; [ reflexivity | ]. split.
    + rewrite length_app. cbn [length]. rewrite length_app. cbn [length]. lia.
    + apply Forall_app. split; [ | exact Hsys ].
      constructor; [ cbn; discriminate | ].
      apply Forall_app. split.
      * apply Forall_forall. intros m Hin. rewrite forallb_forall in Hrep.
        specialize (Hrep m Hin). unfold is_reply in Hrep.
        destruct (Msg.role m); try discriminate.
      * constructor; [ cbn; discriminate | constructor ].
Qed.

(** X11. A turn whose first reply asks for no tool makes exactly one
    outbound call, the completion request: the provider is not contacted. *)
Theorem plain_turn_calls (s : Session W) (u : string) :
  asks_for_tools s u = false ->
  calls (after_turn s u) =
    calls s ++
    [CompletionCall (first_request (system_message :: messages s ++ [user_msg u]))].
Proof.
  unfold asks_for_tools, after_turn.
  destruct (first_call s u) as [[e | response] w1] eqn:H1.
  { intros _. rewrite (chat_first_call_fails _ _ _ _ H1). reflexivity. }
  destruct (first_message response) as [e | m] eqn:H2.
  { intros _. rewrite (chat_first_no_choice _ _ _ _ _ H1 H2). reflexivity. }
  destruct (requested_tool_calls m) as [ | tc tcs] eqn:H3; [ | discriminate ].
  intros _. assert (Hr : first_reply s u m w1) by (exists response; auto).
  rewrite (chat_plain _ _ _ _ Hr H3). reflexivity.
Qed.

Lemma first_event_of_turn (s : Session W) (u : string) :
  exists later,
    calls (after_turn s u) =
      calls s ++
      CompletionCall (first_request (system_message :: messages s ++ [user_msg u]))
        :: later.
Proof.
  unfold after_turn.
  destruct (first_call s u) as [[e | response] w1] eqn:H1.
  { rewrite (chat_first_call_fails _ _ _ _ H1). exists []. reflexivity. }
  destruct (first_message response) as [e | m] eqn:H2.
  { rewrite (chat_first_no_choice _ _ _ _ _ H1 H2). exists []. reflexivity. }
  assert (Hr : first_reply s u m w1) by (exists response; auto).
  destruct (requested_tool_calls m) as [ | tc tcs] eqn:H3.
  { rewrite (chat_plain _ _ _ _ Hr H3). exists []. reflexivity. }
  rewrite (chat_tool_round _ _ _ _ _ _ Hr H3).
  destruct (run_tool_calls (tc :: tcs) _) as [[e | []] s2] eqn:Hl.
  { destruct (run_tool_calls_raised _ _ _ _ Hl)
      as (done & tc' & rest & msgs & gets & _ & _ & _ & Hc & _).
    cbn [before_tools calls] in Hc. exists gets. cbn [snd answered calls].
    rewrite Hc, <- app_assoc. reflexivity. }
  destruct (run_tool_calls_completed _ _ _ Hl) as (msgs & gets & _ & _ & Hc & _).
  cbn [before_tools calls] in Hc.
  exists (gets ++ [CompletionCall (final_request (system_message :: messages s2))]).
  destruct (final_call s2) as [[e | response2] w2];
    [ | destruct (first_message response2) ];
    cbn [snd answered asked_again calls]; rewrite Hc, <- !app_assoc; reflexivity.
Qed.

(** X12. After the history is cleared, the next turn sends the completion
    endpoint the system message and the new user message only: nothing of
    the earlier conversation is in the request. *)
Theorem clear_forgets_context (s : Session W) (u : string) :
  exists later,
    calls (after_turn (clear_chat_history s) u) =
      calls s ++
      CompletionCall
        {| Req.model := "llama-3.3-70b-versatile";
           Req.messages := [system_message; user_msg u];
           Req.tools := Some TOOLS;
           Req.tool_choice := Some "auto"%string;
           Req.max_tokens := 1024;
           Req.temperature := PyFloat "0.7" |} :: later.
Proof.
  destruct (first_event_of_turn (clear_chat_history s) u) as [later Hc].
  exists later. exact Hc.
Qed.

(** X13. A tool request whose dispatch raised stays in the history
    without its result, and the next turn sends it to the completion
    endpoint that way: the request message, the results of the calls
    before the failing one (fewer than were requested), the error report
    and the new user message. *)
Theorem dangling_request_is_sent_again (tc : ToolCall.t) (e : PyException)
    (s : Session W) (u u' : string) (m : ChatMessage.t) (w1 : W)
    (done rest : list ToolCall.t) (s1 : Session W) :
  bad_payload tc e ->
  first_reply s u m w1 ->
  requested_tool_calls m = done ++ tc :: rest ->
  run_tool_calls done (before_tools s u m w1) = (inr tt, s1) ->
  exists results later,
    results_of done results /\
    length results < length (requested_tool_calls m) /\
    calls (after_turn (after_turn s u) u') =
      calls s1 ++
      CompletionCall
        (first_request
           (system_message :: messages s
              ++ [user_msg u; requests_message m] ++ results
              ++ [assistant_message
                    (Some ("Error communicating with Groq API: " ++ str_exn e)%string);
                  user_msg u'])) :: later.
Proof.
  intros Hbad Hr H3 Hl.
  assert (Hraise : forall s : Session W, execute_tool_call tc s = (inl e, s)).
  { intros s0. destruct Hbad as [Hj | arguments Hn Hj Hc].
    - exact (execute_tool_call_not_json _ _ _ Hj).
    - exact (execute_tool_call_no_city _ _ _ _ Hn Hj Hc). }
  assert (Hloop : run_tool_calls (done ++ tc :: rest) (before_tools s u m w1)
                  = (inl e, s1)).
  { rewrite run_tool_calls_app, Hl. cbn [run_tool_calls]. unfold bind at 1.
    rewrite Hraise. reflexivity. }
  destruct (run_tool_calls_completed _ _ _ Hl) as (results & gets & Hm & Hres & _).
  cbn [before_tools messages] in Hm.
  assert (Hafter : after_turn s u = answered s1 (Some (diagnostic e))).
  { unfold after_turn. destruct (done ++ tc :: rest) as [ | tc0 tcs0] eqn:Happ.
    { destruct done; discriminate. }
    rewrite (chat_tool_round _ _ _ _ _ _ Hr H3), Hloop. reflexivity. }
  destruct (first_event_of_turn (after_turn s u) u') as [later Hc].
  exists results, later. split; [ exact Hres | ]. split.
  - rewrite H3, length_app. cbn [length].
    rewrite <- (Forall2_length Hres). lia.
  - rewrite Hc, Hafter. cbn [answered messages calls]. rewrite Hm, <- !app_assoc.
    reflexivity.
Qed.

(* --------------------------------------------------------------------- *)
(** *** The page *)
(* --------------------------------------------------------------------- *)

Lemma bubbles_app (a b : list St.Element) :
  bubbles (a ++ b) = bubbles a ++ bubbles b.
Proof. unfold bubbles. apply flat_map_app. Qed.

Lemma bubbles_of_history (history : list Msg.t) :
  bubbles (flat_map Page.draw history) = transcript history.
Proof.
  unfold bubbles, transcript.
  induction history as [ | m history IH]; [ reflexivity | ].
  cbn [flat_map]. rewrite flat_map_app, IH. unfold Page.draw.
  destruct (Msg.role m); reflexivity.
Qed.

Lemma transcript_app (a b : list Msg.t) :
  transcript (a ++ b) = transcript a ++ transcript b.
Proof. unfold transcript. apply flat_map_app. Qed.

Lemma transcript_of_results (tcs : list ToolCall.t) (msgs : list Msg.t) :
  results_of tcs msgs -> transcript msgs = [].
Proof.
  induction 1 as [ | tc msg tcs msgs (Hrole & _) _ IH]; [ reflexivity | ].
  unfold transcript in *. cbn [flat_map]. rewrite Hrole, IH. reflexivity.
Qed.

Lemma credentials_checked (GROQ_API_KEY : option string) :
  credentials_set GROQ_API_KEY = true ->
  negb (text_bool GROQ_API_KEY) || negb (py_bool OPENWEATHER_API_KEY) = false.
Proof.
  unfold credentials_set. intros Hc. apply andb_true_iff in Hc as [-> ->].
  reflexivity.
Qed.

(** A run in which nothing is submitted. *)
Lemma main_at_rest (GROQ_API_KEY : option string) (widgets : Widgets) (b : Browser W) :
  credentials_set GROQ_API_KEY = true ->
  text_bool (submitted widgets) = false ->
  exists elements,
    bubbles elements = transcript (stored_history b) /\
    Page.main GROQ_API_KEY widgets b =
      (elements,
       if clicked widgets then Rerun else Finished,
       {| session_messages :=
            Some (if clicked widgets then [] else stored_history b);
          outside_world := outside_world b;
          outbound := outbound b |}).
Proof.
  intros Hc Hs. unfold Page.main. rewrite (credentials_checked _ Hc), Hs.
  cbn beta iota. fold (stored_history b). eexists. split.
  2:{ destruct (clicked widgets); reflexivity. }
  rewrite !bubbles_app, bubbles_of_history. cbn. now rewrite !app_nil_r.
Qed.

(** A run in which [u] is submitted. *)
Lemma main_with_prompt (GROQ_API_KEY : option string) (widgets : Widgets)
    (b : Browser W) (u : string) (answer : option string) (s' : Session W) :
  credentials_set GROQ_API_KEY = true ->
  submitted widgets = Some u ->
  u <> ""%string ->
  chat_with_groq u (Page.session_of b (stored_history b)) = (inr answer, s') ->
  exists elements,
    bubbles elements =
      transcript (stored_history b)
        ++ [("user"%string, Some u); ("assistant"%string, answer)] /\
    Page.main GROQ_API_KEY widgets b =
      (elements,
       if clicked widgets then Rerun else Finished,
       {| session_messages := Some (if clicked widgets then [] else messages s');
          outside_world := world s';
          outbound := calls s' |}).
Proof.
  intros Hc Hs Hu Hrun. unfold Page.main. rewrite (credentials_checked _ Hc), Hs.
  cbn [text_bool]. apply String.eqb_neq in Hu. rewrite Hu. cbn [negb].
  cbn beta iota. fold (stored_history b). rewrite Hrun. cbn beta iota.
  eexists. split.
  2:{ destruct (clicked widgets); reflexivity. }
  rewrite !bubbles_app, bubbles_of_history. cbn. now rewrite !app_nil_r.
Qed.

(** X14. With the Groq key in the environment (the script builds its
    client from it before [main] is called), when that key is empty or the
    OpenWeather key is missing or empty, the run stops after the error
    notice: whatever was typed or clicked, no turn is run, no outbound
    call is made, and the stored state is left as it was, the history not
    even being created. *)
Theorem credentials_gate (key : string) (widgets : Widgets) (b : Browser W) :
  key = ""%string \/ py_bool OPENWEATHER_API_KEY = false ->
  Page.main (Some key) widgets b =
    ([St.set_page_config "AI Weather Chatbot" "centered";
      St.title " AI Weather Chatbot";
      St.markdown (Some "*Powered by Groq (Llama 3.1) & OpenWeatherMap*"%string);
      St.error "API keys not found! Please set up your `.env` file with GROQ_API_KEY and OPENWEATHER_API_KEY";
      St.info "Copy `.env.example` to `.env` and add your API keys"],
     Stopped, b).
Proof.
  unfold Page.main. intros [-> | Hw].
  - reflexivity.
  - rewrite Hw, orb_true_r. reflexivity.
Qed.

(** X15. With both credentials set, no run of the page ends with an
    exception: it ends at its last line, or in a rerun when the button was
    clicked; and a visit always settles, after one rerun at most. *)
Theorem page_never_raises (GROQ_API_KEY : option string) (widgets : Widgets)
    (b : Browser W) :
  credentials_set GROQ_API_KEY = true ->
  snd (fst (Page.main GROQ_API_KEY widgets b))
    = (if clicked widgets then Rerun else Finished) /\
  snd (fst (Page.visit GROQ_API_KEY widgets b)) = Finished.
Proof.
  intros Hc.
  assert (Hmain : exists elements b',
            Page.main GROQ_API_KEY widgets b =
              (elements, if clicked widgets then Rerun else Finished, b')).
  { destruct (text_bool (submitted widgets)) eqn:Hs.
    - destruct (submitted widgets) as [u | ] eqn:Hu; [ | discriminate Hs ].
      cbn in Hs. apply negb_true_iff, String.eqb_neq in Hs.
      destruct (turn_appends (Page.session_of b (stored_history b)) u)
        as (answer & _ & Hret & _).
      destruct (chat_with_groq u (Page.session_of b (stored_history b)))
        as [r s'] eqn:Hrun. cbn [fst] in Hret. subst r.
      assert (Hw : submitted widgets = Some u) by exact Hu.
      destruct (main_with_prompt _ _ _ _ _ _ Hc Hw Hs Hrun) as (elements & _ & ->).
      eauto.
    - destruct (main_at_rest _ _ b Hc Hs) as (elements & _ & ->). eauto. }
  destruct Hmain as (elements & b' & Hmain). split.
  - rewrite Hmain. reflexivity.
  - unfold Page.visit. rewrite Hmain.
    destruct (clicked widgets); [ | reflexivity ].
    destruct (main_at_rest _ Page.idle b' Hc eq_refl) as (elements' & _ & ->).
    reflexivity.
Qed.

(** X16. A run in which nothing is submitted and nothing is clicked draws
    the user and assistant messages of the history, in order, and no
    other message (no tool result, no system message); it contacts no
    service and leaves the history as it is, creating it empty when it
    does not exist yet. *)
Theorem run_at_rest (GROQ_API_KEY : option string) (widgets : Widgets)
    (b : Browser W) :
  credentials_set GROQ_API_KEY = true ->
  text_bool (submitted widgets) = false ->
  clicked widgets = false ->
  exists elements,
    Page.main GROQ_API_KEY widgets b =
      (elements, Finished,
       {| session_messages :=
            Some (match session_messages b with
                  | Some history => history
                  | None => []
                  end);
          outside_world := outside_world b;
          outbound := outbound b |}) /\
    bubbles elements =
      flat_map (fun m =>
                  match Msg.role m with
                  | user => [("user"%string, Msg.content m)]
                  | assistant => [("assistant"%string, Msg.content m)]
                  | _ => []
                  end)
               (match session_messages b with
                | Some history => history
                | None => []
                end).
Proof.
  intros Hc Hs Hk. destruct (main_at_rest _ _ b Hc Hs) as (elements & Hb & Hm).
  rewrite Hk in Hm. exists elements. split; [ exact Hm | exact Hb ].
Qed.

Lemma plain_turn_answer (s : Session W) (u : string) :
  asks_for_tools s u = false ->
  exists answer s',
    chat_with_groq u s = (inr answer, s') /\
    messages s' = messages s ++ [user_msg u; assistant_message answer].
Proof.
  unfold asks_for_tools.
  destruct (first_call s u) as [[e | response] w1] eqn:H1.
  { intros _. rewrite (chat_first_call_fails _ _ _ _ H1).
    do 2 eexists. split; [ reflexivity | ]. cbn. now rewrite <- app_assoc. }
  destruct (first_message response) as [e | m] eqn:H2.
  { intros _. rewrite (chat_first_no_choice _ _ _ _ _ H1 H2).
    do 2 eexists. split; [ reflexivity | ]. cbn. now rewrite <- app_assoc. }
  destruct (requested_tool_calls m) as [ | tc tcs] eqn:H3; [ | discriminate ].
  intros _. assert (Hr : first_reply s u m w1) by (exists response; auto).
  rewrite (chat_plain _ _ _ _ Hr H3).
  do 2 eexists. split; [ reflexivity | ]. cbn. now rewrite <- app_assoc.
Qed.

(** X17. After a turn without a tool round the page is stable: the
    bubbles drawn in the run that took the turn (the history, the prompt,
    the answer) are the bubbles any later run at rest draws. *)
Theorem plain_turn_display_is_stable (GROQ_API_KEY : option string)
    (widgets : Widgets) (b : Browser W) (u : string) :
  credentials_set GROQ_API_KEY = true ->
  submitted widgets = Some u ->
  u <> ""%string ->
  clicked widgets = false ->
  asks_for_tools (Page.session_of b (stored_history b)) u = false ->
  bubbles (fst (fst (Page.main GROQ_API_KEY widgets b))) =
  bubbles (fst (fst (Page.main GROQ_API_KEY Page.idle
                       (snd (Page.main GROQ_API_KEY widgets b))))).
Proof.
  intros Hc Hs Hu Hk Hplain.
  destruct (plain_turn_answer _ _ Hplain) as (answer & s' & Hrun & Hm).
  destruct (main_with_prompt _ _ _ _ _ _ Hc Hs Hu Hrun) as (elements & Hb & Hmain).
  rewrite Hmain, Hk. cbn [fst snd].
  match goal with
  | |- _ = bubbles (fst (fst (Page.main _ _ ?b'))) =>
      destruct (main_at_rest GROQ_API_KEY Page.idle b' Hc eq_refl)
        as (elements' & Hb' & ->)
  end.
  cbn [fst snd]. rewrite Hb, Hb'. unfold stored_history at 2.
  cbn [session_messages]. rewrite Hm. cbn [Page.session_of messages].
  rewrite transcript_app. reflexivity.
Qed.

(** X18. After a turn with a completed tool round the page gains a
    bubble: the run that took the turn draws the history, the prompt and
    the answer; a later run at rest also draws, between the prompt and the
    answer, the assistant message that recorded the tool requests, whose
    text is the reply's text, or empty when it had none.  The tool results
    are not drawn. *)
Theorem tool_round_display_gains_a_bubble (GROQ_API_KEY : option string)
    (widgets : Widgets) (b : Browser W) (u : string)
    (m : ChatMessage.t) (w1 : W) (tc : ToolCall.t) (tcs : list ToolCall.t)
    (s2 : Session W) :
  credentials_set GROQ_API_KEY = true ->
  submitted widgets = Some u ->
  u <> ""%string ->
  clicked widgets = false ->
  first_reply (Page.session_of b (stored_history b)) u m w1 ->
  requested_tool_calls m = tc :: tcs ->
  run_tool_calls (tc :: tcs)
    (before_tools (Page.session_of b (stored_history b)) u m w1) = (inr tt, s2) ->
  exists answer,
    fst (chat_with_groq u (Page.session_of b (stored_history b))) = inr answer /\
    bubbles (fst (fst (Page.main GROQ_API_KEY widgets b))) =
      transcript (stored_history b)
        ++ [("user"%string, Some u); ("assistant"%string, answer)] /\
    bubbles (fst (fst (Page.main GROQ_API_KEY Page.idle
                         (snd (Page.main GROQ_API_KEY widgets b))))) =
      transcript (stored_history b)
        ++ [("user"%string, Some u);
            ("assistant"%string, Some (or_empty (ChatMessage.content m)));
            ("assistant"%string, answer)].
Proof.
  intros Hc Hs Hu Hk Hr H3 Hl.
  destruct (tool_round_completed _ _ _ _ _ _ _ Hr H3 Hl)
    as (msgs & gets & answer & Hres & Hm & _ & _ & Hrun).
  exists answer. rewrite Hrun. split; [ reflexivity | ].
  destruct (main_with_prompt _ _ _ _ _ _ Hc Hs Hu Hrun) as (elements & Hb & Hmain).
  rewrite Hmain, Hk. cbn [fst snd]. split; [ exact Hb | ].
  match goal with
  | |- bubbles (fst (fst (Page.main _ _ ?b'))) = _ =>
      destruct (main_at_rest GROQ_API_KEY Page.idle b' Hc eq_refl)
        as (elements' & Hb' & ->)
  end.
  cbn [fst snd]. rewrite Hb'. unfold stored_history at 1.
  cbn [session_messages answered asked_again messages]. rewrite Hm.
  cbn [Page.session_of messages].
  rewrite !transcript_app, (transcript_of_results _ _ Hres).
  rewrite app_nil_r, <- app_assoc. reflexivity.
Qed.

(** X19. Clicking the button, with nothing submitted, empties the history
    and contacts no service; the page settles after the rerun with no
    bubble on it. *)
Theorem clear_visit (GROQ_API_KEY : option string) (widgets : Widgets)
    (b : Browser W) :
  credentials_set GROQ_API_KEY = true ->
  text_bool (submitted widgets) = false ->
  clicked widgets = true ->
  exists elements,
    Page.visit GROQ_API_KEY widgets b =
      (elements, Finished,
       {| session_messages := Some [];
          outside_world := outside_world b;
          outbound := outbound b |}) /\
    bubbles elements = [].
Proof.
  intros Hc Hs Hk. unfold Page.visit.
  destruct (main_at_rest _ _ b Hc Hs) as (elements & _ & ->). rewrite Hk.
  match goal with
  | |- exists _, Page.main _ _ ?b' = _ /\ _ =>
      destruct (main_at_rest GROQ_API_KEY Page.idle b' Hc eq_refl)
        as (elements' & Hb' & ->)
  end.
  exists elements'. split; [ reflexivity | exact Hb' ].
Qed.

End Properties.

(* ===================================================================== *)
(** ** The properties at work on scripted conversations *)
(* ===================================================================== *)

Section Runs.

Import Script.
Local Open Scope list_scope.

(** The provider does not know Zzqqxx. *)
Lemma get_weather_city_not_found_run :
  status_code (not_found_response "Zzqqxx") = 404%Z /\
  fst (get_weather (PyStr "Zzqqxx") (start [] [not_found "Zzqqxx"]))
    = inr (Weather.Failure "City 'Zzqqxx' not found. Please check the spelling.").
Proof.
  split; [ reflexivity | ].
  destruct (get_weather_city_not_found (O := outside)
              "Zzqqxx" (start [] [not_found "Zzqqxx"])
              (not_found_response "Zzqqxx") silent eq_refl eq_refl)
    as (reason & Hg & Hr & _).
  rewrite Hg, Hr. reflexivity.
Defined.

(** The dispatcher renders the weather of London, and hands on the reason
    why Zzqqxx has none. *)
Lemma execute_tool_call_renders_lookup_run :
  (Fn.name (ToolCall.function london_call) = "get_weather"%string /\
   json_loads (Fn.arguments (ToolCall.function london_call))
     = inr (PyDict [("city", PyStr "London")]) /\
   fst (get_weather (PyStr "London") (start [] [london_ok]))
     = inr (Weather.Success london_info) /\
   fst (execute_tool_call london_call (start [] [london_ok])) = inr london_text) /\
  (fst (get_weather (PyStr "Zzqqxx") (start [] [not_found "Zzqqxx"]))
     = inr (Weather.Failure "City 'Zzqqxx' not found. Please check the spelling.") /\
   fst (execute_tool_call zzqqxx_call (start [] [not_found "Zzqqxx"]))
     = inr "City 'Zzqqxx' not found. Please check the spelling."%string).
Proof.
  split.
  - repeat (split; [ reflexivity | ]).
    pose proof (execute_tool_call_renders_lookup (O := outside)
                  london_call (PyDict [("city", PyStr "London")]) (PyStr "London")
                  (Weather.Success london_info) (start [] [london_ok])
                  {| messages := []; world := silent;
                     calls := [HttpGet weather_url (params_for "London")] |}
                  eq_refl eq_refl eq_refl eq_refl) as Hrender.
    destruct (Hrender "light rain"%string eq_refl) as (text & Hrun & Htext & _).
    rewrite Hrun, Htext. reflexivity.
  - split; [ reflexivity | ].
    pose proof (execute_tool_call_renders_lookup (O := outside)
                  zzqqxx_call (PyDict [("city", PyStr "Zzqqxx")]) (PyStr "Zzqqxx")
                  (Weather.Failure "City 'Zzqqxx' not found. Please check the spelling.")
                  (start [] [not_found "Zzqqxx"])
                  {| messages := []; world := silent;
                     calls := [HttpGet weather_url (params_for "Zzqqxx")] |}
                  eq_refl eq_refl eq_refl eq_refl) as Hrender.
    cbv beta iota in Hrender. rewrite Hrender. reflexivity.
Defined.

(** C4 fails as stated: the lookup succeeds, its description being the
    number 500, and the dispatcher renders no text for it: numbers have no
    [capitalize], and the call raises. *)
Lemma successful_lookup_without_text :
  fst (get_weather (PyStr "London") (start [] [inr Visits.coded_conditions]))
    = inr (Weather.Success Visits.coded_info) /\
  execute_tool_call london_call (start [] [inr Visits.coded_conditions])
    = (inl (AttributeError "'int' object has no attribute 'capitalize'"),
       {| messages := []; world := silent;
          calls := [HttpGet weather_url (params_for "London")] |}) /\
  ~ (exists text s',
       execute_tool_call london_call (start [] [inr Visits.coded_conditions])
       = (inr text, s')).
Proof.
  split; [ reflexivity | ]. split; [ reflexivity | ].
  intros (text & s' & Hrun). vm_compute in Hrun. discriminate Hrun.
Qed.

(** C7 fails as stated: a call for a tool that does not exist, with a
    payload that is not JSON, raises instead of being answered. *)
Lemma unknown_tool_broken_payload_raises :
  Fn.name (ToolCall.function broken_call) <> "get_weather"%string /\
  execute_tool_call broken_call offline_session
    = (inl (JSONDecodeError "Expecting value" "not json" 0), offline_session) /\
  ~ (exists s', execute_tool_call broken_call offline_session
                = (inr "Unknown tool"%string, s')).
Proof.
  split; [ discriminate | ]. split; [ reflexivity | ].
  intros [s' Hrun]. vm_compute in Hrun. discriminate Hrun.
Qed.

(** A call for a tool that does not exist, with a JSON payload. *)
Lemma execute_tool_call_unknown_tool_run :
  Fn.name (ToolCall.function other_call) <> "get_weather"%string /\
  json_loads (Fn.arguments (ToolCall.function other_call))
    = inr (PyDict [("zone", PyStr "UTC")]) /\
  execute_tool_call other_call offline_session
    = (inr "Unknown tool"%string, offline_session).
Proof.
  assert (Hname : Fn.name (ToolCall.function other_call) <> "get_weather"%string)
    by discriminate.
  assert (Hjson : json_loads (Fn.arguments (ToolCall.function other_call))
                  = inr (PyDict [("zone", PyStr "UTC")])) by reflexivity.
  split; [ exact Hname | ]. split; [ exact Hjson | ].
  exact (execute_tool_call_unknown_tool (O := outside) other_call
           (PyDict [("zone", PyStr "UTC")]) offline_session Hname Hjson).
Defined.



(** Three turns of small talk, the last one with the endpoint down. *)
Lemma history_length_after_plain_turns_run :
  tool_free hello_session ["Hello"; "Thank you"; "Bye"]%string = true /\
  length (messages (after_turns hello_session ["Hello"; "Thank you"; "Bye"]%string)) = 6 /\
  map Msg.role (messages (after_turns hello_session ["Hello"; "Thank you"; "Bye"]%string))
    = [user; assistant; user; assistant; user; assistant].
Proof.
  assert (Hfree : tool_free hello_session ["Hello"; "Thank you"; "Bye"]%string = true)
    by reflexivity.
  split; [ exact Hfree | ].
  destruct (history_length_after_plain_turns hello_session
              ["Hello"; "Thank you"; "Bye"]%string Hfree) as (_ & Hroles & Hlen).
  split; [ exact (Hlen eq_refl) | exact Hroles ].
Defined.

(** The endpoint is down from the start; and the endpoint goes down after
    the lookup.  Both turns end with the report, and the tool round stays
    in the history. *)
Lemma completion_failure_is_reported_run :
  (completion_fails offline_session "Hello" (APIError "Connection error.")
     (asked offline_session "Hello" silent) /\
   chat_with_groq "Hello" offline_session
     = (inr (Some "Error communicating with Groq API: Connection error."%string),
        {| messages :=
             [{| Msg.role := user;
                 Msg.content := Some "Hello"%string;
                 Msg.tool_calls := None;
                 Msg.tool_call_id := None |};
              {| Msg.role := assistant;
                 Msg.content :=
                   Some "Error communicating with Groq API: Connection error."%string;
                 Msg.tool_calls := None;
                 Msg.tool_call_id := None |}];
           world := silent;
           calls := [CompletionCall (first_request [system_message; user_msg "Hello"])] |})) /\
  (completion_fails cut_off_session london_question (APIError "Connection error.")
     (asked_again cut_off_tools_done silent) /\
   messages (after_turn cut_off_session london_question)
     = messages cut_off_tools_done
         ++ [{| Msg.role := assistant;
                Msg.content :=
                  Some "Error communicating with Groq API: Connection error."%string;
                Msg.tool_calls := None;
                Msg.tool_call_id := None |}] /\
   map Msg.role (messages (after_turn cut_off_session london_question))
     = [user; assistant; tool; assistant] /\
   fst (chat_with_groq london_question cut_off_session)
     = inr (Some "Error communicating with Groq API: Connection error."%string)).
Proof.
  assert (F1 : completion_fails offline_session "Hello" (APIError "Connection error.")
                 (asked offline_session "Hello" silent)).
  { apply first_call_fails. reflexivity. }
  assert (F2 : completion_fails cut_off_session london_question
                 (APIError "Connection error.")
                 (asked_again cut_off_tools_done silent)).
  { apply (final_call_fails cut_off_session london_question _
             (request_for [london_call]) cut_off_asked london_call []).
    - eexists. split; reflexivity.
    - reflexivity.
    - reflexivity.
    - reflexivity. }
  split; (split; [ assumption | ]).
  - destruct (completion_failure_is_reported _ _ _ _ F1) as (Hrun & _).
    exact Hrun.
  - destruct (completion_failure_is_reported _ _ _ _ F2) as (Hrun & _).
    unfold after_turn. rewrite Hrun. repeat split.
Defined.

(** The two completion requests of the London conversation. *)
Lemma completion_requests_of_turn_run :
  first_reply london_session london_question (request_for [london_call]) london_asked /\
  run_tool_calls [london_call]
    (before_tools london_session london_question (request_for [london_call]) london_asked)
    = (inr tt, london_tools_done) /\
  map Req.tools (completion_requests (calls (after_turn london_session london_question)))
    = [Some TOOLS; None] /\
  map Req.tool_choice
      (completion_requests (calls (after_turn london_session london_question)))
    = [Some "auto"%string; None] /\
  map Req.messages
      (completion_requests (calls (after_turn london_session london_question)))
    = [[system_message; user_msg london_question];
       system_message :: messages london_tools_done].
Proof.
  assert (H1 : first_reply london_session london_question
                 (request_for [london_call]) london_asked)
    by (eexists; split; reflexivity).
  assert (H3 : run_tool_calls [london_call]
                 (before_tools london_session london_question
                    (request_for [london_call]) london_asked)
               = (inr tt, london_tools_done)) by reflexivity.
  split; [ exact H1 | ]. split; [ exact H3 | ].
  destruct (completion_requests_of_turn london_session london_question)
    as (later & Hcalls & _ & Hround).
  destruct (Hround _ _ _ _ _ H1 eq_refl H3) as (Hfinal & _).
  rewrite Hcalls. cbn [calls london_session start app completion_requests map].
  rewrite Hfinal. repeat split.
Defined.

(** A payload that is not JSON, and a [get_weather] payload without a
    city, the latter as the second of three calls. *)
Lemma bad_payload_raises_run :
  (bad_payload broken_call (JSONDecodeError "Expecting value" "not json" 0) /\
   execute_tool_call broken_call offline_session
     = (inl (JSONDecodeError "Expecting value" "not json" 0), offline_session)) /\
  (bad_payload cityless_call (KeyError (PyStr "city")) /\
   first_reply mixed_session mixed_question
     (request_for [other_call; cityless_call; london_call]) mixed_asked /\
   run_tool_calls [other_call]
     (before_tools mixed_session mixed_question
        (request_for [other_call; cityless_call; london_call]) mixed_asked)
     = (inr tt, mixed_stopped) /\
   chat_with_groq mixed_question mixed_session
     = (inr (Some "Error communicating with Groq API: 'city'"%string),
        {| messages :=
             [user_msg mixed_question;
              requests_message (request_for [other_call; cityless_call; london_call]);
              tool_message other_call "Unknown tool";
              assistant_message (Some "Error communicating with Groq API: 'city'"%string)];
           world := mixed_asked;
           calls := [CompletionCall
                       (first_request [system_message; user_msg mixed_question])] |})).
Proof.
  assert (B1 : bad_payload (O := outside) broken_call
                 (JSONDecodeError "Expecting value" "not json" 0)).
  { apply not_json. reflexivity. }
  assert (B2 : bad_payload (O := outside) cityless_call (KeyError (PyStr "city"))).
  { apply (no_city _ _ (PyDict [("town", PyStr "London")])); reflexivity. }
  assert (H1 : first_reply mixed_session mixed_question
                 (request_for [other_call; cityless_call; london_call]) mixed_asked)
    by (eexists; split; reflexivity).
  assert (H3 : run_tool_calls [other_call]
                 (before_tools mixed_session mixed_question
                    (request_for [other_call; cityless_call; london_call]) mixed_asked)
               = (inr tt, mixed_stopped)) by reflexivity.
  split; split; try assumption.
  - destruct (bad_payload_raises _ _ B1) as (Hraise & _). apply Hraise.
  - split; [ exact H1 | ]. split; [ exact H3 | ].
    destruct (bad_payload_raises _ _ B2) as (_ & Hturn).
    exact (Hturn mixed_session mixed_question _ mixed_asked
             [other_call] [london_call] mixed_stopped H1 eq_refl H3).
Defined.

(** *** The scenarios of the specification, and the model at work *)

Example london_scenario :
  fst (chat_with_groq london_question london_session) = inr (Some london_answer) /\
  map Msg.content (filter is_tool_result
                     (messages (after_turn london_session london_question)))
    = [Some london_text] /\
  filter (fun ev => is_http_get ev) (calls (after_turn london_session london_question))
    = [HttpGet weather_url (params_for "London")].
Proof. repeat split; reflexivity. Qed.

Example zzqqxx_scenario :
  map Msg.content (filter is_tool_result
                     (messages (after_turn zzqqxx_session zzqqxx_question)))
    = [Some "City 'Zzqqxx' not found. Please check the spelling."%string] /\
  map Msg.role (messages (after_turns zzqqxx_session [zzqqxx_question; "Thanks"%string]))
    = [user; assistant; tool; assistant; user; assistant].
Proof. split; reflexivity. Qed.

Example hello_scenario :
  messages (after_turn hello_session "Hello")
    = [user_msg "Hello"; assistant_message (Some "Hello! How can I help?"%string)] /\
  filter (fun ev => is_http_get ev) (calls (after_turn hello_session "Hello")) = [].
Proof. split; reflexivity. Qed.

Example description_not_text :
  exists s',
    execute_tool_call london_call
      (start [] [inr {| status_code := 200; reason := "OK"; url := weather_url;
                        text := Json.dumps
                          (PyDict [("weather", PyList [PyDict [("description", PyInt 500)]]);
                                   ("main", PyDict [("temp", PyInt 15);
                                                    ("feels_like", PyInt 14);
                                                    ("humidity", PyInt 70)]);
                                   ("wind", PyDict [("speed", PyInt 4)]);
                                   ("sys", PyDict [("country", PyStr "GB")]);
                                   ("name", PyStr "London")]) |}])
    = (inl (AttributeError "'int' object has no attribute 'capitalize'"), s').
Proof. eexists. reflexivity. Qed.

Example lookup_failures :
  fst (get_weather (PyStr "London") offline_session)
    = inr (Weather.Failure "Error fetching weather data: Connection refused") /\
  fst (get_weather (PyStr "London")
         (start [] [inr {| status_code := 500; reason := "Internal Server Error";
                           url := weather_url; text := "" |}]))
    = inr (Weather.Failure
             ("HTTP error occurred: 500 Server Error: Internal Server Error for url: "
                ++ weather_url)) /\
  fst (get_weather (PyStr "London")
         (start [] [inr {| status_code := 200; reason := "OK";
                           url := weather_url; text := "<html>" |}]))
    = inr (Weather.Failure
             "Error fetching weather data: Expecting value: line 1 column 1 (char 0)") /\
  fst (get_weather (PyStr "London")
         (start [] [inr {| status_code := 200; reason := "OK"; url := weather_url;
                           text := Json.dumps (PyDict [("name", PyStr "London")]) |}]))
    = inr (Weather.Failure "Error fetching weather data: 'sys'").
Proof. repeat split; reflexivity. Qed.

Example python_values :
  py_str (PyStr "London") = "London"%string /\
  py_str (PyFloat "15.2") = "15.2"%string /\
  py_str (PyInt 70) = "70"%string /\
  py_str (PyInt (-3)) = "-3"%string /\
  py_str PyNone = "None"%string /\
  py_str (PyList [PyStr "a"; PyInt 1]) = "['a', 1]"%string /\
  py_str (PyDict [("k", PyBool true)]) = "{'k': True}"%string /\
  capitalize "light rain" = "Light rain"%string /\
  capitalize "Light Rain" = "Light rain"%string /\
  capitalize "" = ""%string.
Proof. repeat split; reflexivity. Qed.

Example json_reader :
  Json.loads (Json.dumps london_json) = inr london_json /\
  Json.loads (city_args "London") = inr (PyDict [("city", PyStr "London")]) /\
  Json.loads " [1, -2, 3.5, true, null] "
    = inr (PyList [PyInt 1; PyInt (-2); PyFloat "3.5"; PyBool true; PyNone]) /\
  Json.loads "not json" = inl (JSONDecodeError "Expecting value" "not json" 0) /\
  Json.loads "{city: 1}"
    = inl (JSONDecodeError "Expecting property name enclosed in double quotes"
             "{city: 1}" 1) /\
  Json.loads "[1 2]" = inl (JSONDecodeError "Expecting ',' delimiter" "[1 2]" 3) /\
  Json.loads "1 2" = inl (JSONDecodeError "Extra data" "1 2" 2) /\
  str_exn (JSONDecodeError "Expecting value" "not json" 0)
    = "Expecting value: line 1 column 1 (char 0)"%string.
Proof. repeat split; reflexivity. Qed.

(** *** More runs *)

Import Visits.

Lemma get_weather_success_iff_run :
  json_loads (text london_response) = inr london_json /\
  fst (get_weather (PyStr "London") (start [] [london_ok]))
    = inr (Weather.Success london_info).
Proof.
  split; [ reflexivity | ].
  apply (proj2 (get_weather_success_iff (O := outside) (PyStr "London")
                  (start [] [london_ok]) london_info)).
  exists london_response, london_json. do 5 eexists.
  split; [ reflexivity | ]. split; [ left; reflexivity | ].
  repeat (split; [ reflexivity | ]). reflexivity.
Defined.

Lemma get_weather_http_error_run :
  (400 <= status_code server_error < 600)%Z /\
  status_code server_error <> 404%Z /\
  fst (get_weather (PyStr "London") (start [] [inr server_error]))
    = inr (Weather.Failure
             "HTTP error occurred: 500 Server Error: Internal Server Error for url: http://api.openweathermap.org/data/2.5/weather").
Proof.
  assert (Hrange : (400 <= status_code server_error < 600)%Z) by (cbn; lia).
  assert (Hnot : status_code server_error <> 404%Z) by discriminate.
  split; [ exact Hrange | ]. split; [ exact Hnot | ].
  rewrite (get_weather_http_error (O := outside) (PyStr "London")
             (start [] [inr server_error]) server_error silent eq_refl Hrange Hnot).
  reflexivity.
Defined.

Lemma get_weather_transport_failure_run :
  fst (get_weather (PyStr "London") offline_session)
    = inr (Weather.Failure "Error fetching weather data: Connection refused").
Proof.
  rewrite (get_weather_transport_failure (O := outside) (PyStr "London")
             offline_session (RequestException "Connection refused") silent eq_refl).
  - reflexivity.
  - discriminate.
Defined.

Lemma get_weather_unreadable_body_run :
  json_loads (text web_page) = inl (JSONDecodeError "Expecting value" "<html>" 0) /\
  fst (get_weather (PyStr "London") (start [] [inr web_page]))
    = inr (Weather.Failure
             "Error fetching weather data: Expecting value: line 1 column 1 (char 0)").
Proof.
  split; [ reflexivity | ].
  rewrite (get_weather_unreadable_body (O := outside) (PyStr "London")
             (start [] [inr web_page]) web_page silent
             (JSONDecodeError "Expecting value" "<html>" 0) eq_refl).
  - reflexivity.
  - left. reflexivity.
  - reflexivity.
  - discriminate.
Defined.

Lemma get_weather_missing_name_run :
  json_loads (text error_body)
    = inr (PyDict [("cod", PyInt 429); ("message", PyStr "quota exceeded")]) /\
  fst (get_weather (PyStr "London") (start [] [inr error_body]))
    = inr (Weather.Failure "Error fetching weather data: 'name'").
Proof.
  split; [ reflexivity | ].
  rewrite (get_weather_missing_name (O := outside) (PyStr "London")
             (start [] [inr error_body]) error_body silent
             [("cod", PyInt 429); ("message", PyStr "quota exceeded")] eq_refl).
  - reflexivity.
  - left. reflexivity.
  - reflexivity.
  - reflexivity.
Defined.

Lemma get_weather_empty_weather_list_run :
  json_loads (text no_conditions) = inr no_conditions_json /\
  py_getitem_str no_conditions_json "weather" = inr (PyList []) /\
  fst (get_weather (PyStr "London") (start [] [inr no_conditions]))
    = inr (Weather.Failure "Error fetching weather data: list index out of range").
Proof.
  split; [ reflexivity | ]. split; [ reflexivity | ].
  rewrite (get_weather_empty_weather_list (O := outside) (PyStr "London")
             (start [] [inr no_conditions]) no_conditions silent
             no_conditions_json (PyStr "London") (PyDict [("country", PyStr "GB")])
             (PyStr "GB")
             (PyDict [("temp", PyFloat "15.2"); ("feels_like", PyFloat "14.8");
                      ("humidity", PyInt 70)])
             (PyFloat "15.2") (PyFloat "14.8") (PyInt 70) eq_refl).
  - reflexivity.
  - left. reflexivity.
  - reflexivity.
  - reflexivity.
  - reflexivity.
  - reflexivity.
  - reflexivity.
  - reflexivity.
  - reflexivity.
  - reflexivity.
  - reflexivity.
Defined.

Lemma tool_round_lookups_run :
  run_tool_calls [other_call; london_call] (start [] [london_ok])
    = (inr tt, two_calls_done) /\
  exists gets,
    calls two_calls_done = [] ++ gets /\
    forallb is_http_get gets = true /\
    length gets = 1.
Proof.
  assert (Hrun : run_tool_calls [other_call; london_call] (start [] [london_ok])
                 = (inr tt, two_calls_done)) by reflexivity.
  split; [ exact Hrun | ].
  exact (tool_round_lookups (O := outside) _ _ _ Hrun).
Defined.

Lemma plain_turn_calls_run :
  asks_for_tools hello_session "Hello" = false /\
  calls (after_turn hello_session "Hello")
    = [CompletionCall (first_request [system_message; user_msg "Hello"])].
Proof.
  assert (Hplain : asks_for_tools hello_session "Hello" = false) by reflexivity.
  split; [ exact Hplain | ].
  rewrite (plain_turn_calls (O := outside) hello_session "Hello" Hplain).
  reflexivity.
Defined.

Lemma dangling_request_is_sent_again_run :
  bad_payload broken_call (JSONDecodeError "Expecting value" "not json" 0) /\
  first_reply broken_session broken_question (request_for [broken_call])
    {| completions := [says "It is noon."]; weather := [] |} /\
  nth_error
    (completion_requests
       (calls (after_turn (after_turn broken_session broken_question) "And now?")))
    1
  = Some (first_request
            [system_message;
             user_msg broken_question;
             requests_message (request_for [broken_call]);
             assistant_message
               (Some "Error communicating with Groq API: Expecting value: line 1 column 1 (char 0)"%string);
             user_msg "And now?"]).
Proof.
  assert (Hbad : bad_payload (O := outside) broken_call
                   (JSONDecodeError "Expecting value" "not json" 0))
    by (apply not_json; reflexivity).
  assert (Hreply : first_reply broken_session broken_question
                     (request_for [broken_call])
                     {| completions := [says "It is noon."]; weather := [] |})
    by (eexists; split; reflexivity).
  split; [ exact Hbad | ]. split; [ exact Hreply | ].
  destruct (dangling_request_is_sent_again broken_call _ broken_session
              broken_question "And now?" (request_for [broken_call]) _ [] []
              _ Hbad Hreply eq_refl eq_refl)
    as (results & later & Hres & _ & Hcalls).
  inversion Hres; subst. rewrite Hcalls. reflexivity.
Defined.

Lemma credentials_gate_run :
  snd (fst (Page.main (Some ""%string) (ask "Hello") first_visit)) = Stopped /\
  snd (Page.main (Some ""%string) (ask "Hello") first_visit) = first_visit /\
  bubbles (fst (fst (Page.main (Some ""%string) (ask "Hello") first_visit))) = [].
Proof.
  rewrite (credentials_gate (O := outside) ""%string (ask "Hello") first_visit
             (or_introl eq_refl)).
  repeat split.
Defined.

Lemma page_never_raises_run :
  credentials_set (O := outside) GROQ_API_KEY = true /\
  snd (fst (Page.main GROQ_API_KEY (ask london_question)
              {| session_messages := Some [];
                 outside_world := world cut_off_session;
                 outbound := [] |})) = Finished /\
  snd (fst (Page.visit GROQ_API_KEY clear london_visit)) = Finished.
Proof.
  assert (Hc : credentials_set (O := outside) GROQ_API_KEY = true) by reflexivity.
  split; [ exact Hc | ]. split.
  - exact (proj1 (page_never_raises (O := outside) GROQ_API_KEY (ask london_question)
                    _ Hc)).
  - exact (proj2 (page_never_raises (O := outside) GROQ_API_KEY clear london_visit Hc)).
Defined.

Lemma run_at_rest_run :
  credentials_set (O := outside) GROQ_API_KEY = true /\
  snd (Page.main GROQ_API_KEY Page.idle first_visit)
    = {| session_messages := Some [];
         outside_world := world hello_session;
         outbound := [] |} /\
  bubbles (fst (fst (Page.main GROQ_API_KEY Page.idle first_visit))) = [].
Proof.
  assert (Hc : credentials_set (O := outside) GROQ_API_KEY = true) by reflexivity.
  split; [ exact Hc | ].
  destruct (run_at_rest (O := outside) GROQ_API_KEY Page.idle first_visit Hc
              eq_refl eq_refl) as (elements & Hmain & Hb).
  rewrite Hmain. split; [ reflexivity | exact Hb ].
Defined.

Lemma plain_turn_display_is_stable_run :
  asks_for_tools (Page.session_of first_visit (stored_history first_visit)) "Hello"
    = false /\
  bubbles (fst (fst (Page.main GROQ_API_KEY Page.idle
                       (snd (Page.main GROQ_API_KEY (ask "Hello") first_visit)))))
    = [("user"%string, Some "Hello"%string);
       ("assistant"%string, Some "Hello! How can I help?"%string)].
Proof.
  assert (Hplain : asks_for_tools
                     (Page.session_of first_visit (stored_history first_visit))
                     "Hello" = false) by reflexivity.
  split; [ exact Hplain | ].
  rewrite <- (plain_turn_display_is_stable (O := outside) GROQ_API_KEY (ask "Hello")
                first_visit "Hello" eq_refl eq_refl).
  - reflexivity.
  - discriminate.
  - reflexivity.
  - exact Hplain.
Defined.

Lemma tool_round_display_gains_a_bubble_run :
  first_reply (Page.session_of london_visit (stored_history london_visit))
    london_question (request_for [london_call]) london_asked /\
  bubbles (fst (fst (Page.main GROQ_API_KEY (ask london_question) london_visit)))
    = [("user"%string, Some london_question);
       ("assistant"%string, Some london_answer)] /\
  bubbles (fst (fst (Page.main GROQ_API_KEY Page.idle
                       (snd (Page.main GROQ_API_KEY (ask london_question)
                               london_visit)))))
    = [("user"%string, Some london_question);
       ("assistant"%string, Some ""%string);
       ("assistant"%string, Some london_answer)].
Proof.
  assert (Hreply : first_reply
                     (Page.session_of london_visit (stored_history london_visit))
                     london_question (request_for [london_call]) london_asked)
    by (eexists; split; reflexivity).
  split; [ exact Hreply | ].
  destruct (tool_round_display_gains_a_bubble (O := outside) GROQ_API_KEY
              (ask london_question) london_visit london_question
              (request_for [london_call]) london_asked london_call []
              london_tools_done eq_refl eq_refl)
    as (answer & Hret & Hturn & Hlater);
    [ discriminate | reflexivity | exact Hreply | reflexivity | reflexivity | ].
  injection Hret as <-. rewrite Hturn, Hlater. split; reflexivity.
Defined.

Lemma clear_visit_run :
  snd (Page.visit GROQ_API_KEY clear
         {| session_messages := Some (messages (after_turn london_session london_question));
            outside_world := silent;
            outbound := calls (after_turn london_session london_question) |})
    = {| session_messages := Some [];
         outside_world := silent;
         outbound := calls (after_turn london_session london_question) |} /\
  bubbles (fst (fst (Page.visit GROQ_API_KEY clear
         {| session_messages := Some (messages (after_turn london_session london_question));
            outside_world := silent;
            outbound := calls (after_turn london_session london_question) |}))) = [].
Proof.
  destruct (clear_visit (O := outside) GROQ_API_KEY clear
              {| session_messages :=
                   Some (messages (after_turn london_session london_question));
                 outside_world := silent;
                 outbound := calls (after_turn london_session london_question) |}
              eq_refl eq_refl eq_refl) as (elements & Hvisit & Hb).
  rewrite Hvisit. split; [ reflexivity | exact Hb ].
Defined.

End Runs.
